(** * RevenuePulse: forecast, pricing, what-if simulation and KPI pipeline

    A shallow embedding of [RevenuePulseModel] (backend models of the
    RevenuePulse module): [calculateKPIs], [predictDemand],
    [recommendPricing] and [runSimulation], together with the two queries
    [getRevenueData] and [getMarketData] they are built on.

    Conventions of the embedding.
    - JavaScript numbers are exact rationals ([Q]): stored numbers are
      finite and binary rounding is not modelled.  A number that may be
      [undefined] or [NaN] is an [option Q] ([jsnum]); [None] propagates
      through arithmetic the way [NaN] does.
    - A [Date] is its time value (milliseconds since the epoch).  Local time
      is a fixed offset [utcOffset] from UTC (no daylight-saving changes).
    - An [ObjectId] is an id string that [mongoose.Types.ObjectId] accepts;
      the cast is then the identity.  The cast error the methods raise on
      any other string is outside the embedding, and so is every failure
      of the data store itself.
    - [find(...).sort({ date: 1 })] is the list of the stored documents of
      that hotel within the date range, in ascending date order.
    - [async]/[await] is sequential composition; a [throw] (or a runtime
      [TypeError]) is the [Throw] branch of [result].  Every method wraps
      its body in [try { ... } catch (error) { console.error; throw error }],
      which re-raises the same exception. *)

From Stdlib Require Import ZArith QArith Qround Lqa Lia List Sorted Permutation
  String Ascii DecimalString Bool.
Import ListNotations.

Local Open Scope Z_scope.

(** ** Exceptions *)

Inductive exn : Type :=
| TypeError (message : string)
| Error (message : string).

Inductive result (A : Type) : Type :=
| Ok (value : A)
| Throw (e : exn).

Arguments Ok {A} value.
Arguments Throw {A} e.

Definition bind {A B : Type} (c : result A) (k : A -> result B) : result B :=
  match c with
  | Ok a => k a
  | Throw e => Throw e
  end.

Notation "x <- c ;; k" := (bind c (fun x => k))
  (at level 61, c at next level, right associativity).

(** [array.forEach(f)] with a callback that updates captured state [S]. *)
Fixpoint forEach {A S : Type} (f : S -> A -> result S) (l : list A) (s : S)
  : result S :=
  match l with
  | [] => Ok s
  | x :: rest => s' <- f s x ;; forEach f rest s'
  end.

(** [for (let i = start; i < bound; i++) { predictions.push(body(i)) }]
    run for [n] iterations; with an integer [bound] the test holds for
    exactly the first [Z.to_nat (bound - start)] values of [i]. *)
Fixpoint forLoop {A : Type} (n : nat) (i : Z) (body : Z -> result A)
  (acc : list A) : result (list A) :=
  match n with
  | O => Ok acc
  | S n' => x <- body i ;; forLoop n' (i + 1) body (acc ++ [x])
  end.

(** ** Variable bindings

    [predictDemand] declares [eventsImpact] with [const] and then applies
    [+=] to it; the declaration kind decides what [+=] does. *)

Inductive binding : Type :=
| ConstDecl (v : Q)
| LetDecl (v : Q).

Definition valueOf (b : binding) : Q :=
  match b with
  | ConstDecl v => v
  | LetDecl v => v
  end.

(** The [TypeError] raised by an assignment to a [const] binding. *)
Definition constAssignment : exn :=
  TypeError "Assignment to constant variable.".

(** [b += delta]. *)
Definition addAssign (b : binding) (delta : Q) : result binding :=
  match b with
  | ConstDecl _ => Throw constAssignment
  | LetDecl v => Ok (LetDecl (v + delta)%Q)
  end.

(** ** Numbers *)

(** [x || 0] on a numeric field: [undefined], [null], [NaN] and [0] all give
    [0]. *)
Definition orZero (x : option Q) : Q :=
  match x with
  | Some q => q
  | None => 0%Q
  end.

Definition Math_min (a b : Q) : Q := if Qle_bool a b then a else b.
Definition Math_max (a b : Q) : Q := if Qle_bool a b then b else a.

(** [Math.round]: nearest integer, halves towards plus infinity. *)
Definition Math_round (x : Q) : Z := Qfloor (x + (1 # 2))%Q.

(** Numbers that may be [undefined] or [NaN]. *)
Definition jsnum : Type := option Q.
Definition NaN : jsnum := None.

Definition lift2 (f : Q -> Q -> Q) (a b : jsnum) : jsnum :=
  match a, b with
  | Some x, Some y => Some (f x y)
  | _, _ => None
  end.

Definition jadd : jsnum -> jsnum -> jsnum := lift2 Qplus.
Definition jsub : jsnum -> jsnum -> jsnum := lift2 Qminus.
Definition jmul : jsnum -> jsnum -> jsnum := lift2 Qmult.
Definition jmin : jsnum -> jsnum -> jsnum := lift2 Math_min.
Definition jmax : jsnum -> jsnum -> jsnum := lift2 Math_max.

(** Division.  A zero divisor gives a non-finite value ([NaN] or an
    infinity), folded into [None]; the only division by a quantity that can
    be zero is the one of [percentRevPARChange], whose result is returned
    and not used further. *)
Definition jdiv (a b : jsnum) : jsnum :=
  match a, b with
  | Some x, Some y => if Qeq_bool y 0 then None else Some (x / y)%Q
  | _, _ => None
  end.

(** [a > 0]; false on [undefined] and [NaN]. *)
Definition jpositive (a : jsnum) : bool :=
  match a with
  | Some x => negb (Qle_bool x 0)
  | None => false
  end.

Definition isFinite (a : jsnum) : bool :=
  match a with
  | Some _ => true
  | None => false
  end.

(** ** Dates *)

Definition Date : Type := Z.

Definition msPerDay : Z := 24 * 60 * 60 * 1000.

(** Month (0 to 11) of a day counted from 1970-01-01, by the usual
    era / day-of-era decomposition of the proleptic Gregorian calendar. *)
Definition monthOfDay (day : Z) : Z :=
  let z := day + 719468 in
  let era := z / 146097 in
  let doe := z - era * 146097 in
  let yoe := (doe - doe / 1460 + doe / 36524 - doe / 146096) / 365 in
  let doy := doe - (365 * yoe + yoe / 4 - yoe / 100) in
  let mp := (5 * doy + 2) / 153 in
  if mp <? 10 then mp + 2 else mp - 10.

Section LocalTime.

(** Offset of local time from UTC, in milliseconds. *)
Variable utcOffset : Z.

Definition localDay (d : Date) : Z := (d + utcOffset) / msPerDay.

(** [d.getDay()]: 0 is Sunday; 1970-01-01 was a Thursday. *)
Definition getDay (d : Date) : Z := (localDay d + 4) mod 7.

(** [d.getMonth()]: 0 is January. *)
Definition getMonth (d : Date) : Z := monthOfDay (localDay d).

(** [a.toDateString() === b.toDateString()]: same local calendar day. *)
Definition sameDateString (a b : Date) : bool := localDay a =? localDay b.

End LocalTime.

(** [d2 = new Date(d); d2.setDate(d2.getDate() + n)]: [n] calendar days
    later at the same local time of day. *)
Definition addDays (d : Date) (n : Z) : Date := d + n * msPerDay.

(** ** Documents of the data store *)

Definition ObjectId : Type := string.

(** [RevenueData] documents (only the fields the pipeline reads).  A
    numeric field is [None] when it is absent from the document. *)
Record RevenueData : Type := {
  rev_hotelId : ObjectId;
  rev_date : Date;
  totalRevenue : option Q;
  roomRevenue : option Q;
  foodBeverageRevenue : option Q;
  spaRevenue : option Q;
  retailRevenue : option Q;
  otherRevenue : option Q;
  occupancyRate : option Q;
  adr : option Q;
  revPAR : option Q
}.

(** An element of [events] as mongoose loads it.  The element
    specification of the schema has a key [type: String] beside [name],
    [startDate], [endDate] and [expectedImpact], so the path is declared as
    an array of strings: every loaded event is a string. *)
Definition MarketEvent : Type := string.

(** [event.expectedImpact] on a string: there is no such property, the
    read gives [undefined] ([None]). *)
Definition expectedImpact (event : MarketEvent) : option string := None.

(** [x === literal] for a value that may be [undefined]. *)
Definition strictEq (x : option string) (literal : string) : bool :=
  match x with
  | Some s => String.eqb s literal
  | None => false
  end.

(** [MarketData] documents; [events] is an array path and is always an
    array once the document is loaded. *)
Record MarketData : Type := {
  mkt_hotelId : ObjectId;
  mkt_date : Date;
  events : list MarketEvent
}.

Record Database : Type := {
  revenueCollection : list RevenueData;
  marketCollection : list MarketData;
  hotelCollection : list ObjectId
}.

(** [.sort({ date: 1 })]: ascending by date, by stable insertion. *)
Fixpoint insertByDate {A : Type} (key : A -> Date) (x : A) (l : list A)
  : list A :=
  match l with
  | [] => [x]
  | y :: rest =>
      if key x <=? key y then x :: y :: rest
      else y :: insertByDate key x rest
  end.

Definition sortByDate {A : Type} (key : A -> Date) (l : list A) : list A :=
  fold_right (insertByDate key) [] l.

(** [RevenueData.find({ hotelId: ObjectId(hotelId),
      date: { $gte: startDate, $lte: endDate } }).sort({ date: 1 })],
    for a [hotelId] the cast accepts. *)
Definition getRevenueData (db : Database) (hotelId : ObjectId)
  (startDate endDate : Date) : list RevenueData :=
  sortByDate rev_date
    (filter (fun d => String.eqb (rev_hotelId d) hotelId
                      && (startDate <=? rev_date d)
                      && (rev_date d <=? endDate))
            (revenueCollection db)).

(** The same query on [MarketData]. *)
Definition getMarketData (db : Database) (hotelId : ObjectId)
  (startDate endDate : Date) : list MarketData :=
  sortByDate mkt_date
    (filter (fun d => String.eqb (mkt_hotelId d) hotelId
                      && (startDate <=? mkt_date d)
                      && (mkt_date d <=? endDate))
            (marketCollection db)).

(** [Hotel.findById(hotelId)], as far as [recommendPricing] looks at it. *)
Definition Hotel_findById (db : Database) (hotelId : ObjectId) : bool :=
  existsb (String.eqb hotelId) (hotelCollection db).

(** ** calculateKPIs *)

Record RevenueBreakdown : Type := {
  room : Q;
  foodBeverage : Q;
  spa : Q;
  retail : Q;
  other : Q
}.

Record KPIs : Type := {
  kpi_totalRevenue : Q;
  averageOccupancy : Q;
  averageADR : Q;
  averageRevPAR : Q;
  revenueBreakdown : RevenueBreakdown
}.

(** The nine running totals of the [forEach] in [calculateKPIs]. *)
Record Totals : Type := {
  t_totalRevenue : Q;
  t_totalRoomRevenue : Q;
  t_totalFBRevenue : Q;
  t_totalSpaRevenue : Q;
  t_totalRetailRevenue : Q;
  t_totalOtherRevenue : Q;
  t_totalOccupancy : Q;
  t_totalADR : Q;
  t_totalRevPAR : Q
}.

Local Open Scope Q_scope.

Definition zeroTotals : Totals :=
  {| t_totalRevenue := 0; t_totalRoomRevenue := 0; t_totalFBRevenue := 0;
     t_totalSpaRevenue := 0; t_totalRetailRevenue := 0;
     t_totalOtherRevenue := 0; t_totalOccupancy := 0; t_totalADR := 0;
     t_totalRevPAR := 0 |}.

Definition addToTotals (t : Totals) (data : RevenueData) : Totals :=
  {| t_totalRevenue := t_totalRevenue t + orZero (totalRevenue data);
     t_totalRoomRevenue := t_totalRoomRevenue t + orZero (roomRevenue data);
     t_totalFBRevenue :=
       t_totalFBRevenue t + orZero (foodBeverageRevenue data);
     t_totalSpaRevenue := t_totalSpaRevenue t + orZero (spaRevenue data);
     t_totalRetailRevenue :=
       t_totalRetailRevenue t + orZero (retailRevenue data);
     t_totalOtherRevenue :=
       t_totalOtherRevenue t + orZero (otherRevenue data);
     t_totalOccupancy := t_totalOccupancy t + orZero (occupancyRate data);
     t_totalADR := t_totalADR t + orZero (adr data);
     t_totalRevPAR := t_totalRevPAR t + orZero (revPAR data) |}.

(** [revenueData.length] as a number. *)
Definition lengthQ {A : Type} (l : list A) : Q :=
  inject_Z (Z.of_nat (List.length l)).

Definition calculateKPIs (db : Database) (hotelId : ObjectId)
  (startDate endDate : Date) : result KPIs :=
  let revenueData := getRevenueData db hotelId startDate endDate in
  if (List.length revenueData =? 0)%nat then
    Ok {| kpi_totalRevenue := 0;
          averageOccupancy := 0;
          averageADR := 0;
          averageRevPAR := 0;
          revenueBreakdown :=
            {| room := 0; foodBeverage := 0; spa := 0; retail := 0;
               other := 0 |} |}
  else
    let t := fold_left addToTotals revenueData zeroTotals in
    let dataPoints := lengthQ revenueData in
    let averageOccupancy := t_totalOccupancy t / dataPoints in
    let averageADR := t_totalADR t / dataPoints in
    let averageRevPAR := t_totalRevPAR t / dataPoints in
    Ok {| kpi_totalRevenue := t_totalRevenue t;
          averageOccupancy := averageOccupancy;
          averageADR := averageADR;
          averageRevPAR := averageRevPAR;
          revenueBreakdown :=
            {| room := t_totalRoomRevenue t;
               foodBeverage := t_totalFBRevenue t;
               spa := t_totalSpaRevenue t;
               retail := t_totalRetailRevenue t;
               other := t_totalOtherRevenue t |} |}.

(** ** predictDemand *)

Record Factors : Type := {
  weekendFactor : Q;
  seasonalityFactor : Q;
  eventsImpact : Q
}.

Record Prediction : Type := {
  date : Date;
  predictedOccupancy : Q;
  predictedADR : Q;
  predictedRevPAR : Q;
  factors : Factors
}.

Record DemandForecast : Type := {
  df_hotelId : ObjectId;
  df_targetDate : Date;
  df_daysAhead : Z;
  predictions : list Prediction
}.

(** The callback of [relevantMarketData.events.forEach]. *)
Definition scoreEvent (impact : binding) (event : MarketEvent)
  : result binding :=
  if strictEq (expectedImpact event) "high" then addAssign impact 0.2
  else if strictEq (expectedImpact event) "medium" then
    addAssign impact 0.1
  else if strictEq (expectedImpact event) "low" then
    addAssign impact 0.05
  else Ok impact.

Definition seasonOfMonth (month : Z) : Q :=
  if ((5 <=? month) && (month <=? 8))%Z then 1.3
  else if ((11 <=? month) || (month <=? 1))%Z then 1.2
  else if ((2 <=? month) && (month <=? 4))%Z then 1.1
  else 0.9.

Definition occupancyADRFactor (predictedOccupancy : Q) : Q :=
  if negb (Qle_bool predictedOccupancy 80) then 1.3
  else if negb (Qle_bool predictedOccupancy 60) then 1.1
  else if negb (Qle_bool predictedOccupancy 40) then 0.9
  else 0.8.

Section Forecast.

Variable utcOffset : Z.

(** How [eventsImpact] is declared: [ConstDecl] in the source. *)
Variable declare : Q -> binding.

(** One iteration of the forecast loop, for [forecastDate]. *)
Definition forecastDay (revenueData : list RevenueData)
  (marketData : list MarketData) (avgOccupancy : Q) (forecastDate : Date)
  : result Prediction :=
  let eventsImpact0 := declare 1.0 in
  let relevantMarketData :=
    find (fun data => sameDateString utcOffset (mkt_date data) forecastDate)
         marketData in
  impact <-
    match relevantMarketData with
    | Some data =>
        if (0 <? List.length (events data))%nat
        then forEach scoreEvent (events data) eventsImpact0
        else Ok eventsImpact0
    | None => Ok eventsImpact0
    end ;;
  let eventsImpact := valueOf impact in
  let dayOfWeek := getDay utcOffset forecastDate in
  let weekendFactor :=
    if ((dayOfWeek =? 0) || (dayOfWeek =? 5) || (dayOfWeek =? 6))%Z
    then 1.2 else 1.0 in
  let month := getMonth utcOffset forecastDate in
  let seasonalityFactor := seasonOfMonth month in
  let predictedOccupancy :=
    Math_min 100
      (Math_max 0
         (avgOccupancy * weekendFactor * seasonalityFactor * eventsImpact))
  in
  let baseADR :=
    if (0 <? List.length revenueData)%nat
    then fold_left (fun sum data => sum + orZero (adr data)) revenueData 0
         / lengthQ revenueData
    else 100 in
  let predictedADR :=
    baseADR * occupancyADRFactor predictedOccupancy * seasonalityFactor in
  let predictedRevPAR := predictedOccupancy * predictedADR / 100 in
  Ok {| date := forecastDate;
        predictedOccupancy := predictedOccupancy;
        predictedADR := predictedADR;
        predictedRevPAR := predictedRevPAR;
        factors := {| weekendFactor := weekendFactor;
                      seasonalityFactor := seasonalityFactor;
                      eventsImpact := eventsImpact |} |}.

Definition predictDemandWith (db : Database) (hotelId : ObjectId)
  (targetDate : Date) (daysAhead : Z) : result DemandForecast :=
  let endDate := targetDate in
  let startDate := addDays targetDate (-90) in
  let revenueData := getRevenueData db hotelId startDate endDate in
  let marketData := getMarketData db hotelId startDate endDate in
  let totalOccupancy :=
    fold_left (fun total data => total + orZero (occupancyRate data))
              revenueData 0 in
  let avgOccupancy :=
    if (0 <? List.length revenueData)%nat
    then totalOccupancy / lengthQ revenueData
    else 0 in
  let forecastStartDate := targetDate in
  predictions <-
    forLoop (Z.to_nat daysAhead) 0%Z
      (fun i => forecastDay revenueData marketData avgOccupancy
                  (addDays forecastStartDate i))
      [] ;;
  Ok {| df_hotelId := hotelId;
        df_targetDate := targetDate;
        df_daysAhead := daysAhead;
        predictions := predictions |}.

End Forecast.

(** [predictDemand] as written: [const eventsImpact = 1.0]. *)
Definition predictDemand (utcOffset : Z) :=
  predictDemandWith utcOffset ConstDecl.

(** ** recommendPricing *)

Record RoomType : Type := {
  name : string;
  basePrice : Q
}.

Definition roomTypes : list RoomType :=
  [ {| name := "Standard"; basePrice := 100 |};
    {| name := "Deluxe"; basePrice := 150 |};
    {| name := "Suite"; basePrice := 250 |};
    {| name := "Executive Suite"; basePrice := 350 |} ].

Record PriceRange : Type := {
  minPrice : Z;
  maxPrice : Z
}.

Record RoomRecommendation : Type := {
  roomType : string;
  recommendedPrice : Z;
  priceRange : PriceRange;
  expectedRevenue : Q
}.

Record DailyRecommendation : Type := {
  rec_date : Date;
  occupancyForecast : Q;
  rec_roomTypes : list RoomRecommendation
}.

Record PricingRecommendations : Type := {
  pr_hotelId : ObjectId;
  pr_targetDate : Date;
  pr_daysAhead : Z;
  recommendations : list DailyRecommendation
}.

Definition roomTypeFactor (roomType : RoomType) : Q :=
  if String.eqb (name roomType) "Standard" then 1.0
  else if String.eqb (name roomType) "Deluxe" then 1.1
  else if String.eqb (name roomType) "Suite" then 1.2
  else 1.3.

Definition demandFactor (prediction : Prediction) : Q :=
  if negb (Qle_bool (predictedOccupancy prediction) 80) then 1.4
  else if negb (Qle_bool (predictedOccupancy prediction) 60) then 1.2
  else if negb (Qle_bool (predictedOccupancy prediction) 40) then 1.0
  else 0.9.

(** The callback of [roomTypes.forEach] for one [prediction]. *)
Definition recommendRoom (prediction : Prediction) (roomType : RoomType)
  : RoomRecommendation :=
  let recommendedPrice :=
    Math_round (basePrice roomType
                * demandFactor prediction
                * roomTypeFactor roomType
                * seasonalityFactor (factors prediction)) in
  let minPrice := Math_round (inject_Z recommendedPrice * 0.9) in
  let maxPrice := Math_round (inject_Z recommendedPrice * 1.1) in
  {| roomType := name roomType;
     recommendedPrice := recommendedPrice;
     priceRange := {| minPrice := minPrice; maxPrice := maxPrice |};
     expectedRevenue :=
       inject_Z recommendedPrice * (predictedOccupancy prediction / 100) |}.

(** The callback of [demandForecast.predictions.forEach]. *)
Definition recommendDay (prediction : Prediction) : DailyRecommendation :=
  {| rec_date := date prediction;
     occupancyForecast := predictedOccupancy prediction;
     rec_roomTypes := map (recommendRoom prediction) roomTypes |}.

Definition recommendPricing (utcOffset : Z) (db : Database)
  (hotelId : ObjectId) (targetDate : Date) (daysAhead : Z)
  : result PricingRecommendations :=
  demandForecast <- predictDemand utcOffset db hotelId targetDate daysAhead ;;
  if negb (Hotel_findById db hotelId) then Throw (Error "Hotel not found")
  else
    Ok {| pr_hotelId := hotelId;
          pr_targetDate := targetDate;
          pr_daysAhead := daysAhead;
          recommendations := map recommendDay (predictions demandForecast) |}.

(** ** runSimulation *)

(** A scenario as [runSimulation] destructures it.  The three numeric
    fields are [None] when the property is [undefined] (or [NaN]). *)
Record Scenario : Type := {
  startDate : Date;
  endDate : Date;
  priceChange : jsnum;
  marketingSpend : jsnum;
  competitorPriceChange : jsnum
}.

Record Metrics : Type := {
  occupancy : jsnum;
  m_adr : jsnum;
  m_revPAR : jsnum
}.

Record DailyResult : Type := {
  sim_date : Date;
  baseline : Metrics;
  simulated : Metrics;
  change : Metrics
}.

Record Summary : Type := {
  baselineTotalRevPAR : jsnum;
  simulatedTotalRevPAR : jsnum;
  totalRevPARChange : jsnum;
  percentRevPARChange : jsnum;
  roi : option jsnum          (* [None] is [null] *)
}.

Record SimulationResult : Type := {
  sim_hotelId : ObjectId;
  sim_scenario : Scenario;
  summary : Summary;
  dailyResults : list DailyResult
}.

Definition num (q : Q) : jsnum := Some q.

Definition priceElasticity : Q := -0.5.

Definition demandChangeFromPrice (scenario : Scenario) : jsnum :=
  jmul (priceChange scenario) (num priceElasticity).

Definition marketingImpact (scenario : Scenario) : jsnum :=
  jmin (num 0.1)
       (jmul (jdiv (marketingSpend scenario) (num 1000)) (num 0.02)).

Definition competitorImpact (scenario : Scenario) : jsnum :=
  jmul (competitorPriceChange scenario) (num 0.3).

(** The callback of [baselineForecast.predictions.map]. *)
Definition simulateDay (scenario : Scenario) (prediction : Prediction)
  : DailyResult :=
  let occupancyChange :=
    jadd (jadd (demandChangeFromPrice scenario) (marketingImpact scenario))
         (competitorImpact scenario) in
  let newOccupancy :=
    jmin (num 100)
         (jmax (num 0)
               (jmul (num (predictedOccupancy prediction))
                     (jadd (num 1) occupancyChange))) in
  let newADR :=
    jmul (num (predictedADR prediction))
         (jadd (num 1) (jdiv (priceChange scenario) (num 100))) in
  let newRevPAR := jdiv (jmul newOccupancy newADR) (num 100) in
  {| sim_date := date prediction;
     baseline := {| occupancy := num (predictedOccupancy prediction);
                    m_adr := num (predictedADR prediction);
                    m_revPAR := num (predictedRevPAR prediction) |};
     simulated := {| occupancy := newOccupancy;
                     m_adr := newADR;
                     m_revPAR := newRevPAR |};
     change :=
       {| occupancy := jsub newOccupancy (num (predictedOccupancy prediction));
          m_adr := jsub newADR (num (predictedADR prediction));
          m_revPAR := jsub newRevPAR (num (predictedRevPAR prediction)) |} |}.

(** [Math.round((new Date(endDate) - new Date(startDate))
                / (24 * 60 * 60 * 1000))]. *)
Definition simulatedDays (scenario : Scenario) : Z :=
  Math_round (inject_Z (endDate scenario - startDate scenario)
              / inject_Z msPerDay).

Definition summarize (scenario : Scenario) (basePredictions : list Prediction)
  (simulatedPredictions : list DailyResult) : Summary :=
  let baselineTotalRevPAR :=
    fold_left (fun sum p => jadd sum (num (predictedRevPAR p)))
              basePredictions (num 0) in
  let simulatedTotalRevPAR :=
    fold_left (fun sum p => jadd sum (m_revPAR (simulated p)))
              simulatedPredictions (num 0) in
  let totalRevPARChange := jsub simulatedTotalRevPAR baselineTotalRevPAR in
  let percentRevPARChange :=
    jmul (jdiv totalRevPARChange baselineTotalRevPAR) (num 100) in
  let roi :=
    if jpositive (marketingSpend scenario)
    then Some (jmul (jdiv totalRevPARChange (marketingSpend scenario))
                    (num 100))
    else None in
  {| baselineTotalRevPAR := baselineTotalRevPAR;
     simulatedTotalRevPAR := simulatedTotalRevPAR;
     totalRevPARChange := totalRevPARChange;
     percentRevPARChange := percentRevPARChange;
     roi := roi |}.

Definition runSimulation (utcOffset : Z) (db : Database) (hotelId : ObjectId)
  (scenario : Scenario) : result SimulationResult :=
  baselineForecast <-
    predictDemand utcOffset db hotelId (startDate scenario)
                  (simulatedDays scenario) ;;
  let simulatedPredictions :=
    map (simulateDay scenario) (predictions baselineForecast) in
  Ok {| sim_hotelId := hotelId;
        sim_scenario := scenario;
        summary := summarize scenario (predictions baselineForecast)
                             simulatedPredictions;
        dailyResults := simulatedPredictions |}.

(** ** Definitions used to state the properties *)

(** The integers [i, i+1, ..., i+n-1]: the values the loop counter takes. *)
Fixpoint zrange (i : Z) (n : nat) : list Z :=
  match n with
  | O => []
  | S n' => i :: zrange (i + 1) n'
  end.

(** Running [body] on each element in turn, stopping at the first throw. *)
Fixpoint mapM {A B : Type} (body : A -> result B) (l : list A)
  : result (list B) :=
  match l with
  | [] => Ok []
  | a :: rest => x <- body a ;; xs <- mapM body rest ;; Ok (x :: xs)
  end.

(** Equality of possibly-[NaN] numbers, up to the representation of
    fractions. *)
Definition jeq (a b : jsnum) : Prop :=
  match a, b with
  | Some x, Some y => x == y
  | None, None => True
  | _, _ => False
  end.

(** An event whose [expectedImpact] one of the three branches of
    [scoreEvent] reacts to. *)
Definition scoring (event : MarketEvent) : bool :=
  strictEq (expectedImpact event) "high"
  || strictEq (expectedImpact event) "medium"
  || strictEq (expectedImpact event) "low".

(** The market record [forecastDay] picks for a date carries a scoring
    event. *)
Definition dayScores (utcOffset : Z) (marketData : list MarketData)
  (forecastDate : Date) : bool :=
  match find (fun data => sameDateString utcOffset (mkt_date data)
                                         forecastDate) marketData with
  | Some data => existsb scoring (events data)
  | None => false
  end.

(** No day of the horizon picks a market record with a scoring event. *)
Definition eventFree (utcOffset : Z) (db : Database) (hotelId : ObjectId)
  (targetDate : Date) (daysAhead : Z) : bool :=
  forallb (fun i =>
             negb (dayScores utcOffset
                     (getMarketData db hotelId (addDays targetDate (-90))
                                    targetDate)
                     (addDays targetDate i)))
          (zrange 0 (Z.to_nat daysAhead)).

(** The all-zero KPI object of the specification. *)
Definition zeroKPIs : KPIs :=
  {| kpi_totalRevenue := 0;
     averageOccupancy := 0;
     averageADR := 0;
     averageRevPAR := 0;
     revenueBreakdown :=
       {| room := 0; foodBeverage := 0; spa := 0; retail := 0; other := 0 |}
  |}.

(** The room-type table of the specification: name, base price and type
    factor. *)
Definition specRoomTable : list (string * Q * Q) :=
  [ ("Standard"%string, 100, 1.0);
    ("Deluxe"%string, 150, 1.1);
    ("Suite"%string, 250, 1.2);
    ("Executive Suite"%string, 350, 1.3) ].

(** The demand factor of the specification. *)
Definition specDemandFactor (occupancy : Q) : Q :=
  if Qlt_le_dec 80 occupancy then 1.4
  else if Qlt_le_dec 60 occupancy then 1.2
  else if Qlt_le_dec 40 occupancy then 1.0
  else 0.9.

(** A room recommendation follows the pricing rule of the specification
    for a forecast day and a row of [specRoomTable]. *)
Definition meetsPricingRule (p : Prediction) (row : string * Q * Q)
  (r : RoomRecommendation) : Prop :=
  let '(rowName, rowBasePrice, rowTypeFactor) := row in
  roomType r = rowName
  /\ recommendedPrice r =
       Math_round (rowBasePrice * specDemandFactor (predictedOccupancy p)
                   * rowTypeFactor * seasonalityFactor (factors p))
  /\ expectedRevenue r ==
       inject_Z (recommendedPrice r) * predictedOccupancy p / 100.

(** The price band of a room recommendation. *)
Definition priceBandOk (r : RoomRecommendation) : Prop :=
  minPrice (priceRange r) = Math_round (inject_Z (recommendedPrice r) * 0.9)
  /\ maxPrice (priceRange r) =
       Math_round (inject_Z (recommendedPrice r) * 1.1)
  /\ (minPrice (priceRange r) <= recommendedPrice r)%Z
  /\ (recommendedPrice r <= maxPrice (priceRange r))%Z.

(** The sum of [g] over a list. *)
Fixpoint sumQ {A : Type} (g : A -> Q) (l : list A) : Q :=
  match l with
  | [] => 0
  | x :: rest => g x + sumQ g rest
  end.

(** ** Sample data *)

Definition sampleHotel : ObjectId := "65f0c0ffee0000000000a001"%string.

(** 2024-03-06 (a Wednesday) and 2024-03-09 (a Saturday), midnight UTC. *)
Definition wednesday : Date := (19788 * msPerDay)%Z.
Definition saturday : Date := (19791 * msPerDay)%Z.

Definition sampleRevenue : RevenueData :=
  {| rev_hotelId := sampleHotel;
     rev_date := (19780 * msPerDay)%Z;
     totalRevenue := Some 12600;
     roomRevenue := Some 12600;
     foodBeverageRevenue := Some 0;
     spaRevenue := Some 0;
     retailRevenue := Some 0;
     otherRevenue := Some 0;
     occupancyRate := Some 70;
     adr := Some 180;
     revPAR := Some 126 |}.

Definition sampleMarket : MarketData :=
  {| mkt_hotelId := sampleHotel;
     mkt_date := saturday;
     events := [ "City marathon"%string ] |}.

Definition sampleDb : Database :=
  {| revenueCollection := [sampleRevenue];
     marketCollection := [sampleMarket];
     hotelCollection := [sampleHotel] |}.

Definition emptyDb : Database :=
  {| revenueCollection := [];
     marketCollection := [];
     hotelCollection := [sampleHotel] |}.

(** A hotel id with no document in any collection of [sampleDb]. *)
Definition unknownHotel : ObjectId := "65f0c0ffee0000000000ffff"%string.

(** A baseline day with occupancy 70 and ADR 150. *)
Definition baselineDay : Prediction :=
  {| date := wednesday;
     predictedOccupancy := 70;
     predictedADR := 150;
     predictedRevPAR := 105;
     factors := {| weekendFactor := 1.0;
                   seasonalityFactor := 1.1;
                   eventsImpact := 1.0 |} |}.

(** Price up 10 percent, no marketing spend, competitors unchanged. *)
Definition priceUpScenario : Scenario :=
  {| startDate := wednesday;
     endDate := addDays wednesday 1;
     priceChange := Some 10;
     marketingSpend := Some 0;
     competitorPriceChange := Some 0 |}.

(** A marketing campaign with the competitor field left out. *)
Definition campaignScenario : Scenario :=
  {| startDate := wednesday;
     endDate := addDays wednesday 1;
     priceChange := Some 0;
     marketingSpend := Some 1000;
     competitorPriceChange := None |}.

(** Nothing changes: price, marketing and competitors all at 0. *)
Definition neutralScenario : Scenario :=
  {| startDate := wednesday;
     endDate := addDays wednesday 2;
     priceChange := Some 0;
     marketingSpend := Some 0;
     competitorPriceChange := Some 0 |}.

(** A range that ends before it starts. *)
Definition backwardScenario : Scenario :=
  {| startDate := saturday;
     endDate := wednesday;
     priceChange := Some 5;
     marketingSpend := Some 1000;
     competitorPriceChange := Some 0 |}.

(** The same campaign with every field given. *)
Definition fullCampaignScenario : Scenario :=
  {| startDate := wednesday;
     endDate := addDays wednesday 1;
     priceChange := Some 0;
     marketingSpend := Some 1000;
     competitorPriceChange := Some 0 |}.

(** * GuestDNA: sentiment, recommendations and the concierge

    The second model of the same source file, [GuestDNAModel]:
    [analyzeGuestSentiment], [generateRecommendations],
    [processNaturalLanguageQuery] and [recordInteraction].  Strings are
    sequences of characters; [toLowerCase] is a parameter of the concierge,
    [asciiLower] being its value on ASCII text.  The clock readings of
    [new Date()] and [Date.now()] are arguments. *)

Local Open Scope Q_scope.

(** A numeric path of a document: absent, [null] or a number. *)
Inductive numberField : Type :=
| Missing
| Null
| Number (q : Q).

(** [{ $exists: true }]. *)
Definition fieldExists (x : numberField) : bool :=
  match x with
  | Missing => false
  | _ => true
  end.

(** [x || 0] on a numeric path. *)
Definition fieldOrZero (x : numberField) : Q :=
  match x with
  | Number q => q
  | _ => 0
  end.

(** [x > bound] on a numeric path ([undefined > bound] is false, [null]
    counts as 0). *)
Definition fieldAbove (x : numberField) (bound : Q) : bool :=
  match x with
  | Number q => negb (Qle_bool q bound)
  | Null => negb (Qle_bool 0 bound)
  | Missing => false
  end.

Record AIInteraction : Type := {
  ai_hotelId : ObjectId;
  ai_guestId : option ObjectId;
  sessionId : string;
  channel : string;
  timestamp : Date;
  userInput : string;
  aiResponse : string;
  intent : string;
  sentimentScore : numberField
}.

Record Stay : Type := {
  stay_roomType : option string
}.

Record Preferences : Type := {
  pref_amenities : option (list string)
}.

Record SpendingProfile : Type := {
  averageFoodBeverage : numberField;
  averageSpa : numberField
}.

Record Guest : Type := {
  guest_id : ObjectId;
  stayHistory : option (list Stay);
  preferences : option Preferences;
  spendingProfile : option SpendingProfile;
  behaviorTags : option (list string);
  guest_sentimentScore : numberField;
  guest_updatedAt : Date
}.

Record GuestStore : Type := {
  guestCollection : list Guest;
  interactionCollection : list AIInteraction
}.

(** [Guest.findById(guestId)]. *)
Definition Guest_findById (store : GuestStore) (guestId : ObjectId)
  : option Guest :=
  find (fun g => String.eqb (guest_id g) guestId) (guestCollection store).

(** ** analyzeGuestSentiment *)

Record SentimentAnalysis : Type := {
  overallSentiment : Q;
  sentimentTrend : string;
  interactionCount : nat
}.

(** The filter of
    [AIInteraction.find({ guestId, sentimentScore: { $exists: true } })]. *)
Definition scoredFor (guestId : ObjectId) (i : AIInteraction) : bool :=
  match ai_guestId i with
  | Some g => String.eqb g guestId
  | None => false
  end
  && fieldExists (sentimentScore i).

(** [AIInteraction.find(...).sort({ timestamp: -1 }).limit(100)]. *)
Definition scoredInteractions (store : GuestStore) (guestId : ObjectId)
  : list AIInteraction :=
  firstn 100
    (sortByDate (fun i => (- timestamp i)%Z)
       (filter (scoredFor guestId) (interactionCollection store))).

(** The sum built by [forEach(i => total += i.sentimentScore || 0)]. *)
Definition sumSentiment (l : list AIInteraction) : Q :=
  fold_left (fun total i => total + fieldOrZero (sentimentScore i)) l 0.

(** [l.length || 1] as a number. *)
Definition lengthOrOne {A : Type} (l : list A) : Q :=
  if (List.length l =? 0)%nat then 1 else lengthQ l.

(** [Guest.findByIdAndUpdate(guestId,
      { $set: { sentimentScore, updatedAt: new Date() } })]. *)
Definition setGuestSentiment (store : GuestStore) (guestId : ObjectId)
  (score : Q) (now : Date) : GuestStore :=
  {| guestCollection :=
       map (fun g =>
              if String.eqb (guest_id g) guestId
              then {| guest_id := guest_id g;
                      stayHistory := stayHistory g;
                      preferences := preferences g;
                      spendingProfile := spendingProfile g;
                      behaviorTags := behaviorTags g;
                      guest_sentimentScore := Number score;
                      guest_updatedAt := now |}
              else g)
           (guestCollection store);
     interactionCollection := interactionCollection store |}.

Definition analyzeGuestSentiment (store : GuestStore) (guestId : ObjectId)
  (now : Date) : result (SentimentAnalysis * GuestStore) :=
  let interactions := scoredInteractions store guestId in
  if (List.length interactions =? 0)%nat then
    Ok ({| overallSentiment := 0;
           sentimentTrend := "neutral";
           interactionCount := 0 |}, store)
  else
    let totalSentiment := sumSentiment interactions in
    let overallSentiment := totalSentiment / lengthQ interactions in
    let recentInteractions := firstn 10 interactions in
    let olderInteractions := firstn 10 (skipn 10 interactions) in
    let recentSentiment :=
      sumSentiment recentInteractions / lengthOrOne recentInteractions in
    let olderSentiment :=
      sumSentiment olderInteractions / lengthOrOne olderInteractions in
    let sentimentTrend :=
      if negb (Qle_bool recentSentiment (olderSentiment + 0.1))
      then "improving"%string
      else if negb (Qle_bool (olderSentiment - 0.1) recentSentiment)
           then "declining"%string
           else "neutral"%string in
    Ok ({| overallSentiment := overallSentiment;
           sentimentTrend := sentimentTrend;
           interactionCount := List.length interactions |},
        setGuestSentiment store guestId overallSentiment now).

(** ** generateRecommendations *)

Record Recommendation : Type := {
  rec_type : string;
  rec_value : string;
  confidence : Q;
  reason : string
}.

Record Recommendations : Type := {
  roomPreferences : list Recommendation;
  rec_amenities : list Recommendation;
  services : list Recommendation;
  activities : list Recommendation;
  rec_foodBeverage : list Recommendation
}.

Record GuestRecommendations : Type := {
  gr_guestId : ObjectId;
  gr_recommendations : Recommendations;
  generatedAt : Date
}.

(** [roomTypes[key] = (roomTypes[key] || 0) + 1] on the counting object,
    kept as its own properties in insertion order (room type names are
    ordinary property names: neither array indices nor names inherited
    from [Object.prototype]). *)
Fixpoint bumpCount (key : string) (counts : list (string * nat))
  : list (string * nat) :=
  match counts with
  | [] => [(key, 1%nat)]
  | (k, n) :: rest =>
      if String.eqb k key then (k, S n) :: rest
      else (k, n) :: bumpCount key rest
  end.

(** [roomTypes[key]] for a key of the object. *)
Fixpoint countOf (counts : list (string * nat)) (key : string) : nat :=
  match counts with
  | [] => 0%nat
  | (k, n) :: rest => if String.eqb k key then n else countOf rest key
  end.

(** The object built by [guest.stayHistory.forEach]; [if (stay.roomType)]
    skips absent and empty names. *)
Definition countRoomTypes (stays : list Stay) : list (string * nat) :=
  fold_left (fun counts stay =>
               match stay_roomType stay with
               | Some t => if String.eqb t "" then counts
                           else bumpCount t counts
               | None => counts
               end)
            stays [].

(** [Object.keys(roomTypes).reduce(
      (a, b) => roomTypes[a] > roomTypes[b] ? a : b,
      Object.keys(roomTypes)[0])]; [None] is [undefined]. *)
Definition preferredRoomType (counts : list (string * nat)) : option string :=
  match map fst counts with
  | [] => None
  | first :: _ =>
      Some (fold_left (fun a b =>
                         if (countOf counts b <? countOf counts a)%nat
                         then a else b)
                      (map fst counts) first)
  end.

(** [tags.includes(tag)]. *)
Definition hasTag (tags : list string) (tag : string) : bool :=
  existsb (String.eqb tag) tags.

Definition generateRecommendations (store : GuestStore) (guestId : ObjectId)
  (now : Date) : result GuestRecommendations :=
  match Guest_findById store guestId with
  | None => Throw (Error "Guest not found")
  | Some guest =>
      let roomPreferences :=
        match stayHistory guest with
        | Some stays =>
            if (0 <? List.length stays)%nat then
              match preferredRoomType (countRoomTypes stays) with
              | Some t =>
                  [ {| rec_type := "room_type";
                       rec_value := t;
                       confidence := 0.8;
                       reason := "Based on previous stay history" |} ]
              | None => []
              end
            else []
        | None => []
        end in
      let amenities :=
        match preferences guest with
        | Some prefs =>
            match pref_amenities prefs with
            | Some names =>
                map (fun amenity =>
                       {| rec_type := "amenity";
                          rec_value := amenity;
                          confidence := 0.9;
                          reason := "Explicitly stated preference" |})
                    names
            | None => []
            end
        | None => []
        end in
      let services1 :=
        match spendingProfile guest with
        | Some profile =>
            if fieldAbove (averageSpa profile) 100 then
              [ {| rec_type := "service";
                   rec_value := "Premium Spa Package";
                   confidence := 0.7;
                   reason := "Based on spa spending history" |} ]
            else []
        | None => []
        end in
      let foodBeverage :=
        match spendingProfile guest with
        | Some profile =>
            if fieldAbove (averageFoodBeverage profile) 200 then
              [ {| rec_type := "dining";
                   rec_value := "Fine Dining Experience";
                   confidence := 0.8;
                   reason := "Based on F&B spending history" |} ]
            else []
        | None => []
        end in
      let tags :=
        match behaviorTags guest with
        | Some tags => tags
        | None => []
        end in
      let activities1 :=
        if hasTag tags "fitness_enthusiast" then
          [ {| rec_type := "activity";
               rec_value := "Personal Training Session";
               confidence := 0.75;
               reason := "Matches fitness enthusiast profile" |} ]
        else [] in
      let services2 :=
        if hasTag tags "business_traveler" then
          [ {| rec_type := "service";
               rec_value := "Business Center Access";
               confidence := 0.85;
               reason := "Matches business traveler profile" |} ]
        else [] in
      let activities2 :=
        if hasTag tags "family_traveler" then
          [ {| rec_type := "activity";
               rec_value := "Family Pool Activities";
               confidence := 0.8;
               reason := "Matches family traveler profile" |} ]
        else [] in
      Ok {| gr_guestId := guestId;
            gr_recommendations :=
              {| roomPreferences := roomPreferences;
                 rec_amenities := amenities;
                 services := services1 ++ services2;
                 activities := activities1 ++ activities2;
                 rec_foodBeverage := foodBeverage |};
            generatedAt := now |}
  end.

(** ** processNaturalLanguageQuery *)

(** [s.includes(sub)]: [sub] occurs in [s] as a contiguous run. *)
Fixpoint includes (s sub : string) : bool :=
  String.prefix sub s
  || match s with
     | EmptyString => false
     | String _ rest => includes rest sub
     end.

(** [toLowerCase] on ASCII text. *)
Definition asciiLowerChar (c : ascii) : ascii :=
  let n := nat_of_ascii c in
  if ((65 <=? n) && (n <=? 90))%nat then ascii_of_nat (n + 32) else c.

Fixpoint asciiLower (s : string) : string :=
  match s with
  | EmptyString => EmptyString
  | String c rest => String (asciiLowerChar c) (asciiLower rest)
  end.

Record Reply : Type := {
  response : string;
  reply_intent : string;
  reply_sentimentScore : Q;
  reply_timestamp : Date
}.

(** The three clock readings of one call, in the order they are taken:
    [Date.now()] for the session id, [new Date()] for the interaction and
    [new Date()] for the reply. *)
Record Clock : Type := {
  sessionNow : Z;
  interactionNow : Date;
  replyNow : Date
}.

Definition unknownResponse : string :=
  "I'm not sure how to help with that. Could you please rephrase?".
Definition roomServiceResponse : string :=
  "I'd be happy to help you order room service. Our menu includes a variety of options from local cuisine to international favorites. Would you like me to show you the menu?".
Definition housekeepingResponse : string :=
  "I'll arrange for housekeeping to visit your room. Is there anything specific you need, such as extra towels or toiletries?".
Definition conciergeResponse : string :=
  "As your personal concierge, I can recommend several attractions based on your preferences. Would you prefer cultural experiences, outdoor activities, or culinary adventures?".
Definition complaintResponse : string :=
  "I'm sorry to hear you're experiencing an issue. I'll make sure this is addressed immediately. Could you provide more details so we can resolve this quickly?".

(** [new AIInteraction(interactionData).save()]. *)
Definition recordInteraction (store : GuestStore)
  (interactionData : AIInteraction) : result (AIInteraction * GuestStore) :=
  Ok (interactionData,
      {| guestCollection := guestCollection store;
         interactionCollection :=
           interactionCollection store ++ [interactionData] |}).

Section Concierge.

Variable toLowerCase : string -> string.

(** The keyword chain: intent, response and sentiment score of a query. *)
Definition matchIntent (query : string) : string * string * Q :=
  if includes (toLowerCase query) "room service"
     || includes (toLowerCase query) "food"
     || includes (toLowerCase query) "hungry"
  then ("room_service"%string, roomServiceResponse, 0.2)
  else if includes (toLowerCase query) "clean"
          || includes (toLowerCase query) "towel"
          || includes (toLowerCase query) "housekeeping"
  then ("housekeeping"%string, housekeepingResponse, 0.1)
  else if includes (toLowerCase query) "recommend"
          || includes (toLowerCase query) "what to do"
          || includes (toLowerCase query) "attraction"
  then ("concierge"%string, conciergeResponse, 0.3)
  else if includes (toLowerCase query) "problem"
          || includes (toLowerCase query) "issue"
          || includes (toLowerCase query) "not working"
          || includes (toLowerCase query) "complaint"
  then ("complaint"%string, complaintResponse, -0.5)
  else ("unknown"%string, unknownResponse, 0).

(** The reply is built, the interaction is saved through
    [recordInteraction], and the reply is returned.  The two ids are ones
    the [ObjectId] casts accept and the save succeeds, so the embedding
    always returns; what the theorems state is about the calls that
    return. *)
Definition processNaturalLanguageQuery (store : GuestStore)
  (guestId : ObjectId) (query : string) (hotelId : ObjectId) (clock : Clock)
  : result (Reply * GuestStore) :=
  let '(intent, response, sentimentScore) := matchIntent query in
  let interactionData :=
    {| ai_hotelId := hotelId;
       ai_guestId := Some guestId;
       sessionId :=
         "session_" ++ NilZero.string_of_int (Z.to_int (sessionNow clock));
       channel := "chat";
       timestamp := interactionNow clock;
       userInput := query;
       aiResponse := response;
       intent := intent;
       sentimentScore := Number sentimentScore |} in
  saved <- recordInteraction store interactionData ;;
  Ok ({| response := response;
         reply_intent := intent;
         reply_sentimentScore := sentimentScore;
         reply_timestamp := replyNow clock |},
      snd saved).

End Concierge.

(** ** Definitions used to state the GuestDNA properties *)

(** How often a room type occurs in a stay history. *)
Definition staysOfType (stays : list Stay) (t : string) : nat :=
  List.length
    (filter (fun stay =>
               match stay_roomType stay with
               | Some t' => String.eqb t' t
               | None => false
               end)
            stays).

(** The callback of the [forEach] in [countRoomTypes]. *)
Definition roomTypeStep (counts : list (string * nat)) (stay : Stay)
  : list (string * nat) :=
  match stay_roomType stay with
  | Some t => if String.eqb t "" then counts else bumpCount t counts
  | None => counts
  end.

(** The keywords of the concierge, in the order of the chain. *)
Definition conciergeKeywords : list string :=
  [ "room service"; "food"; "hungry";
    "clean"; "towel"; "housekeeping";
    "recommend"; "what to do"; "attraction";
    "problem"; "issue"; "not working"; "complaint" ]%string.

(** The trend label of a single average against a baseline of 0. *)
Definition trendOf (average : Q) : string :=
  if Qlt_le_dec 0.1 average then "improving"
  else if Qlt_le_dec average (-0.1) then "declining"
  else "neutral".

(** ** GuestDNA sample data *)

Definition sampleGuestId : ObjectId := "65f0c0ffee0000000000b001"%string.

Definition sampleGuest : Guest :=
  {| guest_id := sampleGuestId;
     stayHistory :=
       Some [ {| stay_roomType := Some "Deluxe"%string |};
              {| stay_roomType := Some "Suite"%string |};
              {| stay_roomType := None |};
              {| stay_roomType := Some "Deluxe"%string |} ];
     preferences := Some {| pref_amenities := Some ["Pool"%string] |};
     spendingProfile :=
       Some {| averageFoodBeverage := Number 250; averageSpa := Missing |};
     behaviorTags := Some ["business_traveler"%string];
     guest_sentimentScore := Missing;
     guest_updatedAt := wednesday |}.

Definition sampleStore : GuestStore :=
  {| guestCollection := [sampleGuest];
     interactionCollection := [] |}.

(** One stored complaint of the sample guest. *)
Definition sampleComplaint : AIInteraction :=
  {| ai_hotelId := sampleHotel;
     ai_guestId := Some sampleGuestId;
     sessionId := "session_1709683200000";
     channel := "chat";
     timestamp := wednesday;
     userInput := "The air conditioning is not working";
     aiResponse := complaintResponse;
     intent := "complaint";
     sentimentScore := Number (-0.5) |}.

Definition complaintStore : GuestStore :=
  {| guestCollection := [sampleGuest];
     interactionCollection := [sampleComplaint] |}.

Definition sampleClock : Clock :=
  {| sessionNow := saturday;
     interactionNow := saturday;
     replyNow := (saturday + 5)%Z |}.

(** * Properties *)

(** ** Loops *)

Lemma bind_Ok_inv {A B : Type} (c : result A) (k : A -> result B) (b : B) :
  bind c k = Ok b -> exists a, c = Ok a /\ k a = Ok b.
Proof.
  destruct c as [a | e]; simpl; intros H.
  - exists a; split; [reflexivity | exact H].
  - discriminate H.
Qed.

Lemma forLoop_mapM {A : Type} (body : Z -> result A) (n : nat) :
  forall (i : Z) (acc : list A),
    forLoop n i body acc = (xs <- mapM body (zrange i n) ;; Ok (acc ++ xs)).
Proof.
  induction n as [| n IH]; intros i acc; simpl.
  - now rewrite app_nil_r.
  - destruct (body i) as [x | e]; simpl; [| reflexivity].
    rewrite IH.
    destruct (mapM body (zrange (i + 1) n)) as [xs | e]; simpl;
      [| reflexivity].
    now rewrite <- app_assoc.
Qed.

Lemma mapM_Ok_Forall2 {A B : Type} (body : A -> result B) (l : list A) :
  forall xs, mapM body l = Ok xs ->
             Forall2 (fun a x => body a = Ok x) l xs.
Proof.
  induction l as [| a l IH]; simpl; intros xs H.
  - injection H as <-. constructor.
  - apply bind_Ok_inv in H as (x & Hx & H).
    apply bind_Ok_inv in H as (xs' & Hxs & H).
    injection H as <-.
    constructor; [exact Hx | now apply IH].
Qed.

Lemma mapM_Ok_intro {A B : Type} (body : A -> result B) (l : list A) :
  (forall a, In a l -> exists x, body a = Ok x) ->
  exists xs, mapM body l = Ok xs.
Proof.
  induction l as [| a l IH]; simpl; intros H.
  - now exists [].
  - destruct (H a (or_introl eq_refl)) as [x Hx].
    destruct IH as [xs Hxs]; [intros b Hb; apply H; now right |].
    exists (x :: xs). now rewrite Hx, Hxs.
Qed.

Lemma zrange_length (n : nat) : forall i, List.length (zrange i n) = n.
Proof. induction n as [| n IH]; intros i; simpl; [| rewrite IH]; reflexivity. Qed.

Lemma zrange_In (n : nat) :
  forall i j, In j (zrange i n) <-> (i <= j < i + Z.of_nat n)%Z.
Proof.
  induction n as [| n IH]; intros i j; simpl.
  - split; [contradiction | lia].
  - rewrite IH. lia.
Qed.

Lemma Forall2_map_eq {A B C : Type} (f : A -> C) (g : B -> C)
  (R : A -> B -> Prop) (l : list A) (l' : list B) :
  (forall a b, R a b -> g b = f a) ->
  Forall2 R l l' -> map g l' = map f l.
Proof.
  intros HR. induction 1 as [| a b l l' Hab _ IH]; simpl;
    [reflexivity | now rewrite IH, (HR a b Hab)].
Qed.

Lemma Forall2_Forall_r {A B : Type} (R : A -> B -> Prop) (P : B -> Prop)
  (l : list A) (l' : list B) :
  (forall a b, R a b -> P b) -> Forall2 R l l' -> Forall P l'.
Proof.
  intros HR. induction 1 as [| a b l l' Hab _ IH]; constructor;
    [exact (HR a b Hab) | exact IH].
Qed.

Lemma Forall2_map_r_intro {A B : Type} (R : A -> B -> Prop) (f : A -> B)
  (l : list A) : (forall a, In a l -> R a (f a)) -> Forall2 R l (map f l).
Proof.
  induction l as [| a l IH]; simpl; intros H; constructor.
  - apply H. now left.
  - apply IH. intros b Hb. apply H. now right.
Qed.

(** ** Arithmetic of [Math.min], [Math.max] and [Math.round] *)

Local Open Scope Q_scope.

Lemma Qle_bool_false (a b : Q) : Qle_bool a b = false -> b < a.
Proof.
  intros H. apply Qnot_le_lt. intros Hle.
  apply Qle_bool_iff in Hle. congruence.
Qed.

Lemma clamp_bounds (x : Q) :
  0 <= Math_min 100 (Math_max 0 x) /\ Math_min 100 (Math_max 0 x) <= 100.
Proof.
  unfold Math_min, Math_max.
  destruct (Qle_bool 0 x) eqn:H0.
  - apply Qle_bool_iff in H0.
    destruct (Qle_bool 100 x) eqn:H100.
    + split; lra.
    + apply Qle_bool_false in H100. split; lra.
  - destruct (Qle_bool 100 0) eqn:H100.
    + apply Qle_bool_iff in H100. lra.
    + split; lra.
Qed.

Lemma Math_round_nonneg (x : Q) : 0 <= x -> (0 <= Math_round x)%Z.
Proof.
  intros Hx. unfold Math_round.
  change 0%Z with (Qfloor 0). apply Qfloor_resp_le. lra.
Qed.

Lemma Math_round_low_band (n : Z) :
  (0 <= n)%Z -> (Math_round (inject_Z n * 0.9) <= n)%Z.
Proof.
  intros Hn. unfold Math_round.
  assert (Hq : 0 <= inject_Z n) by (rewrite Zle_Qle in Hn; exact Hn).
  pose proof (Qfloor_le (inject_Z n * 0.9 + (1 # 2))) as Hfl.
  assert (Hlt : inject_Z (Qfloor (inject_Z n * 0.9 + (1 # 2)))
                < inject_Z (n + 1)).
  { rewrite inject_Z_plus. change (inject_Z 1) with 1. lra. }
  rewrite <- Zlt_Qlt in Hlt. lia.
Qed.

Lemma Math_round_high_band (n : Z) :
  (0 <= n)%Z -> (n <= Math_round (inject_Z n * 1.1))%Z.
Proof.
  intros Hn. unfold Math_round.
  assert (Hq : 0 <= inject_Z n) by (rewrite Zle_Qle in Hn; exact Hn).
  rewrite <- (Qfloor_Z n) at 1.
  apply Qfloor_resp_le. lra.
Qed.

(** ** The event loop of [predictDemand] *)

Lemma scoreEvent_const (v : Q) (event : MarketEvent) :
  scoreEvent (ConstDecl v) event =
  if scoring event then Throw constAssignment else Ok (ConstDecl v).
Proof.
  unfold scoreEvent, scoring.
  destruct (strictEq (expectedImpact event) "high"); [reflexivity |].
  destruct (strictEq (expectedImpact event) "medium"); [reflexivity |].
  destruct (strictEq (expectedImpact event) "low"); reflexivity.
Qed.

Lemma forEach_scoreEvent_const (v : Q) (l : list MarketEvent) :
  forEach scoreEvent l (ConstDecl v) =
  if existsb scoring l then Throw constAssignment else Ok (ConstDecl v).
Proof.
  induction l as [| event l IH]; [reflexivity |].
  cbn [forEach existsb]. rewrite scoreEvent_const.
  destruct (scoring event); simpl; [reflexivity | exact IH].
Qed.

(** No loaded event has an [expectedImpact]: none of the three branches
    of the callback is taken, whatever the event and the declaration. *)
Lemma scoreEvent_no_effect (impact : binding) (event : MarketEvent) :
  scoring event = false /\ scoreEvent impact event = Ok impact.
Proof. split; reflexivity. Qed.

Lemma eventFree_always (utcOffset : Z) (db : Database) (hotelId : ObjectId)
  (targetDate : Date) (daysAhead : Z) :
  eventFree utcOffset db hotelId targetDate daysAhead = true.
Proof.
  unfold eventFree. apply forallb_forall. intros i _.
  unfold dayScores. destruct (find _ _) as [data |]; [| reflexivity].
  induction (events data) as [| event l IH]; [reflexivity | exact IH].
Qed.

Lemma seasonOfMonth_cases (month : Z) :
  seasonOfMonth month = 1.3 \/ seasonOfMonth month = 1.2
  \/ seasonOfMonth month = 1.1 \/ seasonOfMonth month = 0.9.
Proof.
  unfold seasonOfMonth.
  destruct ((5 <=? month) && (month <=? 8))%Z; [now left |].
  destruct ((11 <=? month) || (month <=? 1))%Z; [now right; left |].
  destruct ((2 <=? month) && (month <=? 4))%Z;
    [now right; right; left | now right; right; right].
Qed.

Lemma seasonOfMonth_pos (month : Z) : 0 < seasonOfMonth month.
Proof.
  destruct (seasonOfMonth_cases month) as [H | [H | [H | H]]];
    rewrite H; reflexivity.
Qed.

(** ** One forecast day *)

Section ForecastDay.

Variable utcOffset : Z.
Variable revenueData : list RevenueData.
Variable marketData : list MarketData.
Variable avgOccupancy : Q.

(** Whatever the declaration, a day that is produced carries its own
    date, a clamped occupancy, the RevPAR identity and one of the four
    seasonal factors. *)
Lemma forecastDay_Ok_inv (declare : Q -> binding) (d : Date)
  (p : Prediction) :
  forecastDay utcOffset declare revenueData marketData avgOccupancy d
  = Ok p ->
  date p = d
  /\ (0 <= predictedOccupancy p /\ predictedOccupancy p <= 100)
  /\ predictedRevPAR p = predictedOccupancy p * predictedADR p / 100
  /\ seasonalityFactor (factors p) = seasonOfMonth (getMonth utcOffset d).
Proof.
  unfold forecastDay. intros H.
  apply bind_Ok_inv in H as (impact & _ & H).
  injection H as <-. simpl.
  repeat split; try reflexivity; apply clamp_bounds.
Qed.

Lemma forecastDay_const_scoring (d : Date) :
  dayScores utcOffset marketData d = true ->
  forecastDay utcOffset ConstDecl revenueData marketData avgOccupancy d
  = Throw constAssignment.
Proof.
  unfold forecastDay, dayScores. intros H.
  destruct (find _ marketData) as [data |]; [| discriminate H].
  rewrite forEach_scoreEvent_const, H.
  destruct (events data) as [| event l]; [discriminate H | reflexivity].
Qed.

Lemma forecastDay_const_quiet (d : Date) :
  dayScores utcOffset marketData d = false ->
  exists p,
    forecastDay utcOffset ConstDecl revenueData marketData avgOccupancy d
    = Ok p
    /\ eventsImpact (factors p) = 1.0.
Proof.
  unfold forecastDay, dayScores. intros H.
  destruct (find _ marketData) as [data |].
  - rewrite forEach_scoreEvent_const, H.
    destruct (0 <? List.length (events data))%nat; simpl;
      eexists; split; reflexivity.
  - simpl. eexists; split; reflexivity.
Qed.

End ForecastDay.

(** ** The forecast as a whole *)

Section PredictDemand.

Variable utcOffset : Z.
Variable db : Database.
Variable hotelId : ObjectId.
Variable targetDate : Date.
Variable daysAhead : Z.

(** The history the forecast is computed from. *)
Let revenueData :=
  getRevenueData db hotelId (addDays targetDate (-90)) targetDate.
Let marketData :=
  getMarketData db hotelId (addDays targetDate (-90)) targetDate.
Let avgOccupancy :=
  if (0 <? List.length revenueData)%nat
  then fold_left (fun total data => total + orZero (occupancyRate data))
                 revenueData 0 / lengthQ revenueData
  else 0.

Lemma predictDemandWith_Ok_inv (declare : Q -> binding)
  (f : DemandForecast) :
  predictDemandWith utcOffset declare db hotelId targetDate daysAhead
  = Ok f ->
  Forall2 (fun i p =>
             forecastDay utcOffset declare revenueData marketData
                         avgOccupancy (addDays targetDate i) = Ok p)
          (zrange 0 (Z.to_nat daysAhead)) (predictions f).
Proof.
  unfold predictDemandWith. intros H.
  apply bind_Ok_inv in H as (l & Hl & H).
  injection H as <-. simpl.
  rewrite forLoop_mapM in Hl.
  apply bind_Ok_inv in Hl as (xs & Hxs & Hl).
  injection Hl as <-. simpl.
  now apply mapM_Ok_Forall2 in Hxs.
Qed.

Lemma predictDemand_eventFree_returns :
  eventFree utcOffset db hotelId targetDate daysAhead = true ->
  exists f, predictDemand utcOffset db hotelId targetDate daysAhead = Ok f.
Proof.
  unfold eventFree, predictDemand, predictDemandWith. intros H.
  rewrite forallb_forall in H.
  rewrite forLoop_mapM.
  destruct (mapM_Ok_intro
              (fun i => forecastDay utcOffset ConstDecl revenueData
                          marketData avgOccupancy (addDays targetDate i))
              (zrange 0 (Z.to_nat daysAhead))) as [xs Hxs].
  - intros i Hi. specialize (H i Hi).
    apply negb_true_iff in H.
    destruct (forecastDay_const_quiet utcOffset revenueData marketData
                avgOccupancy _ H) as (p & Hp & _).
    now exists p.
  - subst revenueData marketData avgOccupancy.
    rewrite Hxs. simpl. eexists; reflexivity.
Qed.

(** Every day a forecast contains was produced by [forecastDay]. *)
Lemma predictDemand_days (f : DemandForecast) (P : Prediction -> Prop) :
  (forall d p,
      forecastDay utcOffset ConstDecl revenueData marketData avgOccupancy d
      = Ok p -> P p) ->
  predictDemand utcOffset db hotelId targetDate daysAhead = Ok f ->
  Forall P (predictions f).
Proof.
  intros HP H. apply predictDemandWith_Ok_inv in H.
  eapply Forall2_Forall_r; [| exact H].
  intros i p Hp. exact (HP _ _ Hp).
Qed.

End PredictDemand.

(** ** KPI aggregation *)

(** [calculateKPIs] never throws. *)
Lemma calculateKPIs_total (db : Database) (hotelId : ObjectId)
  (startDate endDate : Date) :
  exists k, calculateKPIs db hotelId startDate endDate = Ok k.
Proof.
  unfold calculateKPIs.
  destruct (List.length _ =? 0)%nat; eexists; reflexivity.
Qed.

(** C3.  Whenever the record store returns no revenue record for the hotel
    and date range, [calculateKPIs] returns (and does not throw) the KPI
    object whose five top-level fields and five breakdown fields are all
    zero; it is a value of the same record type [KPIs], with the same
    fields, as the result on a non-empty history. *)
Theorem calculateKPIs_empty (db : Database) (hotelId : ObjectId)
  (startDate endDate : Date) :
  getRevenueData db hotelId startDate endDate = [] ->
  calculateKPIs db hotelId startDate endDate = Ok zeroKPIs.
Proof.
  unfold calculateKPIs. intros ->. reflexivity.
Qed.

Lemma calculateKPIs_empty_witness :
  getRevenueData sampleDb sampleHotel saturday (addDays saturday 7) = []
  /\ calculateKPIs sampleDb sampleHotel saturday (addDays saturday 7)
     = Ok zeroKPIs.
Proof.
  split; [reflexivity |].
  apply (calculateKPIs_empty sampleDb sampleHotel saturday
           (addDays saturday 7)).
  reflexivity.
Defined.

(** ** Demand forecast *)

(** C4.  Every prediction in a forecast returned by [predictDemand], for
    any database, hotel, target date and horizon, has a predicted
    occupancy between 0 and 100. *)
Theorem predictDemand_occupancy_clamped (utcOffset : Z) (db : Database)
  (hotelId : ObjectId) (targetDate : Date) (daysAhead : Z)
  (f : DemandForecast) :
  predictDemand utcOffset db hotelId targetDate daysAhead = Ok f ->
  Forall (fun p => 0 <= predictedOccupancy p /\ predictedOccupancy p <= 100)
         (predictions f).
Proof.
  apply predictDemand_days. intros d p Hp.
  apply forecastDay_Ok_inv in Hp. tauto.
Qed.

Lemma predictDemand_occupancy_clamped_witness :
  exists f,
    predictDemand 0 sampleDb sampleHotel wednesday 3 = Ok f
    /\ List.length (predictions f) = 3%nat
    /\ Forall (fun p => 0 <= predictedOccupancy p
                        /\ predictedOccupancy p <= 100)
              (predictions f).
Proof.
  eexists. split; [vm_compute; reflexivity |].
  split; [reflexivity |].
  apply (predictDemand_occupancy_clamped 0 sampleDb sampleHotel wednesday 3).
  vm_compute; reflexivity.
Defined.

(** C5.  Every prediction in a forecast returned by [predictDemand] has
    predictedRevPAR equal to predictedOccupancy * predictedADR / 100, as the
    very same number. *)
Theorem predictDemand_revPAR_identity (utcOffset : Z) (db : Database)
  (hotelId : ObjectId) (targetDate : Date) (daysAhead : Z)
  (f : DemandForecast) :
  predictDemand utcOffset db hotelId targetDate daysAhead = Ok f ->
  Forall (fun p => predictedRevPAR p
                   = predictedOccupancy p * predictedADR p / 100)
         (predictions f).
Proof.
  apply predictDemand_days. intros d p Hp.
  apply forecastDay_Ok_inv in Hp. tauto.
Qed.

Lemma predictDemand_revPAR_identity_witness :
  exists f,
    predictDemand 0 sampleDb sampleHotel wednesday 3 = Ok f
    /\ List.length (predictions f) = 3%nat
    /\ Forall (fun p => predictedRevPAR p
                        = predictedOccupancy p * predictedADR p / 100)
              (predictions f).
Proof.
  eexists. split; [vm_compute; reflexivity |].
  split; [reflexivity |].
  apply (predictDemand_revPAR_identity 0 sampleDb sampleHotel wednesday 3).
  vm_compute; reflexivity.
Defined.

(** The seasonal factor recorded in a returned prediction is positive. *)
Lemma predictDemand_season_pos (utcOffset : Z) (db : Database)
  (hotelId : ObjectId) (targetDate : Date) (daysAhead : Z)
  (f : DemandForecast) :
  predictDemand utcOffset db hotelId targetDate daysAhead = Ok f ->
  Forall (fun p => 0 < seasonalityFactor (factors p)) (predictions f).
Proof.
  apply predictDemand_days. intros d p Hp.
  apply forecastDay_Ok_inv in Hp as (_ & _ & _ & ->).
  apply seasonOfMonth_pos.
Qed.

(** ** Pricing recommendations *)

Lemma demandFactor_spec (p : Prediction) :
  demandFactor p = specDemandFactor (predictedOccupancy p).
Proof.
  unfold demandFactor, specDemandFactor.
  destruct (Qle_bool (predictedOccupancy p) 80) eqn:H80; simpl.
  - apply Qle_bool_iff in H80.
    destruct (Qlt_le_dec 80 (predictedOccupancy p)); [lra |].
    destruct (Qle_bool (predictedOccupancy p) 60) eqn:H60; simpl.
    + apply Qle_bool_iff in H60.
      destruct (Qlt_le_dec 60 (predictedOccupancy p)); [lra |].
      destruct (Qle_bool (predictedOccupancy p) 40) eqn:H40; simpl.
      * apply Qle_bool_iff in H40.
        destruct (Qlt_le_dec 40 (predictedOccupancy p)); [lra | reflexivity].
      * apply Qle_bool_false in H40.
        destruct (Qlt_le_dec 40 (predictedOccupancy p)); [reflexivity | lra].
    + apply Qle_bool_false in H60.
      destruct (Qlt_le_dec 60 (predictedOccupancy p)); [reflexivity | lra].
  - apply Qle_bool_false in H80.
    destruct (Qlt_le_dec 80 (predictedOccupancy p)); [reflexivity | lra].
Qed.

Lemma demandFactor_pos (p : Prediction) : 0 < demandFactor p.
Proof.
  unfold demandFactor.
  destruct (negb _); [reflexivity |].
  destruct (negb _); [reflexivity |].
  destruct (negb _); reflexivity.
Qed.

Lemma recommendRoom_expectedRevenue (p : Prediction) (rt : RoomType) :
  expectedRevenue (recommendRoom p rt)
  == inject_Z (recommendedPrice (recommendRoom p rt))
     * predictedOccupancy p / 100.
Proof. unfold recommendRoom; simpl. field. Qed.

(** The four rows of [roomTypes], with the factor [roomTypeFactor] derives
    from the name, are the rows of the specification's table. *)
Lemma roomTypes_table :
  map (fun rt => (name rt, basePrice rt, roomTypeFactor rt)) roomTypes
  = specRoomTable.
Proof. reflexivity. Qed.

Lemma recommendRoom_rule (p : Prediction) (rt : RoomType) :
  meetsPricingRule p (name rt, basePrice rt, roomTypeFactor rt)
                   (recommendRoom p rt).
Proof.
  unfold meetsPricingRule. split; [reflexivity |]. split.
  - unfold recommendRoom; simpl. now rewrite demandFactor_spec.
  - apply recommendRoom_expectedRevenue.
Qed.

Lemma recommendDay_rule (p : Prediction) :
  Forall2 (meetsPricingRule p) specRoomTable (rec_roomTypes (recommendDay p)).
Proof.
  rewrite <- roomTypes_table.
  change (rec_roomTypes (recommendDay p))
    with (map (recommendRoom p) roomTypes).
  generalize roomTypes as l.
  induction l as [| rt l IH]; simpl; constructor;
    [apply recommendRoom_rule | exact IH].
Qed.

Lemma recommendPricing_Ok_inv (utcOffset : Z) (db : Database)
  (hotelId : ObjectId) (targetDate : Date) (daysAhead : Z)
  (r : PricingRecommendations) :
  recommendPricing utcOffset db hotelId targetDate daysAhead = Ok r ->
  exists f,
    predictDemand utcOffset db hotelId targetDate daysAhead = Ok f
    /\ Hotel_findById db hotelId = true
    /\ recommendations r = map recommendDay (predictions f).
Proof.
  unfold recommendPricing. intros H.
  apply bind_Ok_inv in H as (f & Hf & H).
  exists f. split; [exact Hf |].
  destruct (Hotel_findById db hotelId); simpl in H; [| discriminate H].
  injection H as <-. split; reflexivity.
Qed.

Lemma recommendPricing_returns (utcOffset : Z) (db : Database)
  (hotelId : ObjectId) (targetDate : Date) (daysAhead : Z)
  (f : DemandForecast) :
  predictDemand utcOffset db hotelId targetDate daysAhead = Ok f ->
  Hotel_findById db hotelId = true ->
  exists r, recommendPricing utcOffset db hotelId targetDate daysAhead = Ok r.
Proof.
  intros Hf Hh. unfold recommendPricing. rewrite Hf. simpl. rewrite Hh.
  eexists; reflexivity.
Qed.

(** C6.  Whenever [recommendPricing] returns, its recommendations are, day
    by day, those of the forecast [predictDemand] returns for the same
    arguments: each day carries one entry per row of the table
    Standard/Deluxe/Suite/Executive Suite (base prices 100/150/250/350, type
    factors 1.0/1.1/1.2/1.3), in that order, with recommendedPrice =
    round(basePrice * demandFactor * typeFactor * seasonalityFactor of that
    day), demandFactor being 1.4 above 80, 1.2 above 60, 1.0 above 40 and
    0.9 otherwise, and expectedRevenue = recommendedPrice *
    predictedOccupancy / 100. *)
Theorem recommendPricing_rule (utcOffset : Z) (db : Database)
  (hotelId : ObjectId) (targetDate : Date) (daysAhead : Z)
  (r : PricingRecommendations) :
  recommendPricing utcOffset db hotelId targetDate daysAhead = Ok r ->
  exists f,
    predictDemand utcOffset db hotelId targetDate daysAhead = Ok f
    /\ Forall2 (fun p day =>
                  rec_date day = date p
                  /\ occupancyForecast day = predictedOccupancy p
                  /\ Forall2 (meetsPricingRule p) specRoomTable
                             (rec_roomTypes day))
               (predictions f) (recommendations r).
Proof.
  intros H. apply recommendPricing_Ok_inv in H as (f & Hf & _ & ->).
  exists f. split; [exact Hf |].
  apply Forall2_map_r_intro. intros p _.
  split; [reflexivity |]. split; [reflexivity |].
  apply recommendDay_rule.
Qed.

Lemma recommendPricing_rule_witness :
  exists r f,
    recommendPricing 0 sampleDb sampleHotel wednesday 2 = Ok r
    /\ predictDemand 0 sampleDb sampleHotel wednesday 2 = Ok f
    /\ List.length (recommendations r) = 2%nat
    /\ Forall2 (fun p day =>
                  rec_date day = date p
                  /\ occupancyForecast day = predictedOccupancy p
                  /\ Forall2 (meetsPricingRule p) specRoomTable
                             (rec_roomTypes day))
               (predictions f) (recommendations r).
Proof.
  eexists.
  destruct (recommendPricing_rule 0 sampleDb sampleHotel wednesday 2 _
              ltac:(vm_compute; reflexivity)) as (f & Hf & Hrule).
  exists f. split; [reflexivity |]. split; [exact Hf |].
  split; [reflexivity | exact Hrule].
Defined.

Lemma roomTypes_positive (rt : RoomType) :
  In rt roomTypes -> 0 < basePrice rt /\ 0 < roomTypeFactor rt.
Proof.
  unfold roomTypes; simpl.
  intros [<- | [<- | [<- | [<- | []]]]]; split; reflexivity.
Qed.

Lemma recommendRoom_price_nonneg (p : Prediction) (rt : RoomType) :
  0 < seasonalityFactor (factors p) -> In rt roomTypes ->
  (0 <= recommendedPrice (recommendRoom p rt))%Z.
Proof.
  intros Hs Hrt. destruct (roomTypes_positive rt Hrt) as [Hb Ht].
  pose proof (demandFactor_pos p) as Hd.
  unfold recommendRoom; simpl. apply Math_round_nonneg.
  repeat apply Qmult_le_0_compat; apply Qlt_le_weak; assumption.
Qed.

Lemma recommendRoom_band (p : Prediction) (rt : RoomType) :
  0 < seasonalityFactor (factors p) -> In rt roomTypes ->
  priceBandOk (recommendRoom p rt).
Proof.
  intros Hs Hrt.
  pose proof (recommendRoom_price_nonneg p rt Hs Hrt) as Hn.
  unfold priceBandOk.
  split; [reflexivity |]. split; [reflexivity |]. split.
  - apply (Math_round_low_band _ Hn).
  - apply (Math_round_high_band _ Hn).
Qed.

(** C7.  Every room recommendation in a result returned by
    [recommendPricing] has priceRange.min = round(recommendedPrice * 0.9),
    priceRange.max = round(recommendedPrice * 1.1) and
    priceRange.min <= recommendedPrice <= priceRange.max. *)
Theorem recommendPricing_price_band (utcOffset : Z) (db : Database)
  (hotelId : ObjectId) (targetDate : Date) (daysAhead : Z)
  (r : PricingRecommendations) :
  recommendPricing utcOffset db hotelId targetDate daysAhead = Ok r ->
  Forall (fun day => Forall priceBandOk (rec_roomTypes day))
         (recommendations r).
Proof.
  intros H. apply recommendPricing_Ok_inv in H as (f & Hf & _ & ->).
  apply predictDemand_season_pos in Hf.
  rewrite Forall_forall in Hf.
  apply Forall_forall. intros day Hday.
  apply in_map_iff in Hday as (p & <- & Hp).
  apply Forall_forall. intros room Hroom.
  change (rec_roomTypes (recommendDay p))
    with (map (recommendRoom p) roomTypes) in Hroom.
  apply in_map_iff in Hroom as (rt & <- & Hrt).
  apply recommendRoom_band; [now apply Hf | exact Hrt].
Qed.

Lemma recommendPricing_price_band_witness :
  exists r,
    recommendPricing 0 sampleDb sampleHotel wednesday 2 = Ok r
    /\ List.length (recommendations r) = 2%nat
    /\ Forall (fun day => Forall priceBandOk (rec_roomTypes day))
              (recommendations r).
Proof.
  eexists. split; [vm_compute; reflexivity |].
  split; [reflexivity |].
  apply (recommendPricing_price_band 0 sampleDb sampleHotel wednesday 2).
  vm_compute; reflexivity.
Defined.

(** ** The days of a forecast *)

Local Open Scope Z_scope.

Lemma addDays_0 (d : Date) : addDays d 0 = d.
Proof. unfold addDays. lia. Qed.

Lemma localDay_addDays (utcOffset : Z) (d : Date) (i : Z) :
  localDay utcOffset (addDays d i) = localDay utcOffset d + i.
Proof.
  unfold localDay, addDays.
  replace (d + i * msPerDay + utcOffset)
    with (d + utcOffset + i * msPerDay) by lia.
  apply Z.div_add. discriminate.
Qed.

Lemma map_shift_zrange (c : Z) (n : nat) :
  forall i, map (fun k => c + k) (zrange i n) = zrange (c + i) n.
Proof.
  induction n as [| n IH]; intros i; simpl; [reflexivity |].
  rewrite IH. now rewrite Z.add_assoc.
Qed.

Lemma addDays_zrange_sorted (d : Date) (n : nat) :
  forall i, StronglySorted Z.lt (map (addDays d) (zrange i n)).
Proof.
  induction n as [| n IH]; intros i; simpl; constructor.
  - apply IH.
  - apply Forall_forall. intros x Hx.
    apply in_map_iff in Hx as (j & <- & Hj).
    apply zrange_In in Hj. unfold addDays, msPerDay. lia.
Qed.

Lemma predictDemand_dates (utcOffset : Z) (db : Database)
  (hotelId : ObjectId) (targetDate : Date) (daysAhead : Z)
  (f : DemandForecast) :
  predictDemand utcOffset db hotelId targetDate daysAhead = Ok f ->
  map date (predictions f)
  = map (addDays targetDate) (zrange 0 (Z.to_nat daysAhead)).
Proof.
  intros H. apply predictDemandWith_Ok_inv in H.
  eapply Forall2_map_eq; [| exact H].
  intros i p Hp. now apply forecastDay_Ok_inv in Hp as (-> & _).
Qed.

(** C9.  For a horizon daysAhead >= 1, [predictDemand] returns whenever no
    day of the horizon picks a market record with a high, medium or low
    event, and every forecast it returns has exactly daysAhead predictions:
    the i-th is dated i calendar days after the target date, so the dates
    are consecutive calendar days starting at the target date, in strictly
    ascending order. *)
Theorem predictDemand_one_per_day (utcOffset : Z) (db : Database)
  (hotelId : ObjectId) (targetDate : Date) (daysAhead : Z) :
  1 <= daysAhead ->
  (eventFree utcOffset db hotelId targetDate daysAhead = true ->
   exists f, predictDemand utcOffset db hotelId targetDate daysAhead = Ok f)
  /\ forall f,
      predictDemand utcOffset db hotelId targetDate daysAhead = Ok f ->
      Z.of_nat (List.length (predictions f)) = daysAhead
      /\ map date (predictions f)
         = map (addDays targetDate) (zrange 0 (Z.to_nat daysAhead))
      /\ map (fun p => localDay utcOffset (date p)) (predictions f)
         = zrange (localDay utcOffset targetDate) (Z.to_nat daysAhead)
      /\ StronglySorted Z.lt (map date (predictions f)).
Proof.
  intros Hdays. split; [apply predictDemand_eventFree_returns |].
  intros f Hf. pose proof (predictDemand_dates _ _ _ _ _ _ Hf) as Hdates.
  repeat split.
  - rewrite <- (length_map date), Hdates, length_map, zrange_length. lia.
  - exact Hdates.
  - rewrite <- (map_map date (localDay utcOffset)), Hdates, map_map.
    rewrite (map_ext _ (fun k => localDay utcOffset targetDate + k))
      by (intros k; apply localDay_addDays).
    rewrite map_shift_zrange. now rewrite Z.add_0_r.
  - rewrite Hdates. apply addDays_zrange_sorted.
Qed.

Lemma predictDemand_one_per_day_witness :
  exists f,
    predictDemand 0 sampleDb sampleHotel wednesday 3 = Ok f
    /\ Z.of_nat (List.length (predictions f)) = 3
    /\ map date (predictions f)
       = [wednesday; addDays wednesday 1; addDays wednesday 2].
Proof.
  destruct (predictDemand_one_per_day 0 sampleDb sampleHotel wednesday 3
              ltac:(lia)) as [Hreturns Hshape].
  destruct (Hreturns ltac:(vm_compute; reflexivity)) as [f Hf].
  exists f. split; [exact Hf |].
  destruct (Hshape f Hf) as (Hlen & Hdates & _).
  split; [exact Hlen |].
  rewrite Hdates. vm_compute. reflexivity.
Defined.

(** ** The days of a simulation *)

Lemma runSimulation_Ok_inv (utcOffset : Z) (db : Database)
  (hotelId : ObjectId) (scenario : Scenario) (r : SimulationResult) :
  runSimulation utcOffset db hotelId scenario = Ok r ->
  exists f,
    predictDemand utcOffset db hotelId (startDate scenario)
                  (simulatedDays scenario) = Ok f
    /\ dailyResults r = map (simulateDay scenario) (predictions f)
    /\ summary r = summarize scenario (predictions f)
                             (map (simulateDay scenario) (predictions f)).
Proof.
  unfold runSimulation. intros H.
  apply bind_Ok_inv in H as (f & Hf & H).
  injection H as <-. exists f. repeat split; assumption.
Qed.

Lemma simulatedDays_one_day (scenario : Scenario) :
  endDate scenario = addDays (startDate scenario) 1 ->
  simulatedDays scenario = 1.
Proof.
  unfold simulatedDays, addDays. intros ->.
  replace (startDate scenario + 1 * msPerDay - startDate scenario)
    with msPerDay by lia.
  reflexivity.
Qed.

(** C10.  [runSimulation] returns whenever its baseline forecast does, and
    every result it returns has exactly
    round((endDate - startDate) / 86,400,000) daily entries, the i-th dated
    i days after startDate; so when endDate is startDate plus one day there
    is exactly one entry, dated startDate, and endDate itself is not
    simulated. *)
Theorem runSimulation_days (utcOffset : Z) (db : Database)
  (hotelId : ObjectId) (scenario : Scenario) :
  let days :=
    Math_round (inject_Z (endDate scenario - startDate scenario)
                / inject_Z 86400000)%Q in
  (eventFree utcOffset db hotelId (startDate scenario) days = true ->
   exists r, runSimulation utcOffset db hotelId scenario = Ok r)
  /\ forall r,
      runSimulation utcOffset db hotelId scenario = Ok r ->
      List.length (dailyResults r) = Z.to_nat days
      /\ map sim_date (dailyResults r)
         = map (addDays (startDate scenario)) (zrange 0 (Z.to_nat days))
      /\ (endDate scenario = addDays (startDate scenario) 1 ->
          map sim_date (dailyResults r) = [startDate scenario]).
Proof.
  intros days. change days with (simulatedDays scenario). clear days.
  split.
  - intros Hfree. apply predictDemand_eventFree_returns in Hfree as [f Hf].
    unfold runSimulation. rewrite Hf. simpl. eexists; reflexivity.
  - intros r Hr. apply runSimulation_Ok_inv in Hr as (f & Hf & Hdaily & _).
    apply predictDemand_dates in Hf.
    assert (Hdates : map sim_date (dailyResults r)
                     = map (addDays (startDate scenario))
                           (zrange 0 (Z.to_nat (simulatedDays scenario)))).
    { rewrite Hdaily, map_map. exact Hf. }
    repeat split.
    + now rewrite <- (length_map sim_date), Hdates, length_map, zrange_length.
    + exact Hdates.
    + intros Hend. rewrite Hdates, (simulatedDays_one_day _ Hend).
      simpl. now rewrite addDays_0.
Qed.

Lemma runSimulation_days_witness :
  exists r,
    runSimulation 0 sampleDb sampleHotel fullCampaignScenario = Ok r
    /\ map sim_date (dailyResults r) = [wednesday].
Proof.
  destruct (runSimulation_days 0 sampleDb sampleHotel fullCampaignScenario)
    as [Hreturns Hshape].
  destruct (Hreturns ltac:(vm_compute; reflexivity)) as [r Hr].
  exists r. split; [exact Hr |].
  destruct (Hshape r Hr) as (_ & _ & Hone).
  apply Hone. reflexivity.
Defined.

(** ** Return on investment of a simulation *)

Local Open Scope Q_scope.

Lemma jpositive_Some (m : Q) : jpositive (Some m) = true <-> 0 < m.
Proof.
  unfold jpositive. rewrite negb_true_iff. split; intros H.
  - now apply Qle_bool_false.
  - destruct (Qle_bool m 0) eqn:E; [| reflexivity].
    apply Qle_bool_iff in E. lra.
Qed.

Lemma Qeq_bool_pos (m : Q) : 0 < m -> Qeq_bool m 0 = false.
Proof.
  intros Hm. destruct (Qeq_bool m 0) eqn:E; [| reflexivity].
  apply Qeq_bool_iff in E. lra.
Qed.

(** C8.  A campaign of 1000 over one day with a nonzero baseline RevPAR,
    posted without competitorPriceChange (a field the controller leaves
    optional): [runSimulation] returns an roi that is [NaN], not a finite
    number, because [undefined * 0.3] enters every simulated day.  The same
    campaign with competitorPriceChange = 0 gets a finite roi. *)
Theorem campaign_roi_not_finite :
  (exists r b,
      runSimulation 0 sampleDb sampleHotel campaignScenario = Ok r
      /\ marketingSpend campaignScenario = Some 1000
      /\ competitorPriceChange campaignScenario = None
      /\ baselineTotalRevPAR (summary r) = Some b
      /\ ~ b == 0
      /\ roi (summary r) = Some NaN)
  /\ exists r q,
       runSimulation 0 sampleDb sampleHotel fullCampaignScenario = Ok r
       /\ roi (summary r) = Some (Some q).
Proof.
  split.
  - eexists. eexists.
    split; [vm_compute; reflexivity |].
    split; [reflexivity |]. split; [reflexivity |].
    split; [reflexivity |]. split; [| reflexivity].
    intros H. vm_compute in H. discriminate H.
  - eexists. eexists.
    split; [vm_compute; reflexivity |]. reflexivity.
Qed.

(** ** Events in the forecast *)


(** The first scenario of the specification: Wednesday 2024-03-06, no
    event, occupancy 70 and ADR 180 in the history. *)
Example predictDemand_quiet_wednesday :
  exists f p,
    predictDemand 0 sampleDb sampleHotel wednesday 1 = Ok f
    /\ predictions f = [p]
    /\ weekendFactor (factors p) == 1.0
    /\ seasonalityFactor (factors p) == 1.1
    /\ eventsImpact (factors p) == 1.0
    /\ predictedOccupancy p == 77
    /\ predictedADR p == 217.8
    /\ predictedRevPAR p == 167.706.
Proof.
  eexists. eexists.
  split; [vm_compute; reflexivity |].
  split; [reflexivity |].
  repeat split; vm_compute; reflexivity.
Qed.

(** ** Price elasticity in the simulation *)

(** C2.  For priceChange = 10, marketingSpend = 0, competitorPriceChange = 0
    and a baseline day with occupancy 70 and ADR 150, [runSimulation]'s
    per-day callback computes occupancyChange = -5, hence newOccupancy = 0
    (clamped from 70 * (1 - 5)), newADR = 165 and newRevPAR = 0; the
    occupancy is not 66.5 and the RevPAR is not 109.725. *)
Theorem simulateDay_price_up :
  let day := simulateDay priceUpScenario baselineDay in
  jeq (jadd (jadd (demandChangeFromPrice priceUpScenario)
                  (marketingImpact priceUpScenario))
            (competitorImpact priceUpScenario))
      (Some (-5))
  /\ jeq (occupancy (simulated day)) (Some 0)
  /\ jeq (m_adr (simulated day)) (Some 165)
  /\ jeq (m_revPAR (simulated day)) (Some 0)
  /\ ~ jeq (occupancy (simulated day)) (Some 66.5)
  /\ ~ jeq (m_revPAR (simulated day)) (Some 109.725).
Proof.
  repeat split; try (vm_compute; reflexivity);
    intros H; vm_compute in H; discriminate H.
Qed.

(** The same scenario run end to end over the sample history: the one
    simulated day has occupancy 0 and RevPAR 0, and roi is null. *)
Example runSimulation_price_up :
  exists r day,
    runSimulation 0 sampleDb sampleHotel priceUpScenario = Ok r
    /\ dailyResults r = [day]
    /\ jeq (occupancy (baseline day)) (Some 77)
    /\ jeq (occupancy (simulated day)) (Some 0)
    /\ jeq (m_revPAR (simulated day)) (Some 0)
    /\ roi (summary r) = None.
Proof.
  eexists. eexists.
  split; [vm_compute; reflexivity |].
  split; [reflexivity |].
  repeat split; vm_compute; reflexivity.
Qed.

(** * Further properties of the pipeline *)

(** ** The date order of the queries *)

Local Open Scope Z_scope.

Lemma insertByDate_In {A : Type} (key : A -> Date) (x y : A) (l : list A) :
  In y (insertByDate key x l) <-> y = x \/ In y l.
Proof.
  induction l as [| z l IH]; simpl.
  - intuition.
  - destruct (key x <=? key z); simpl; [intuition |].
    rewrite IH. intuition.
Qed.

Lemma sortByDate_In {A : Type} (key : A -> Date) (y : A) (l : list A) :
  In y (sortByDate key l) <-> In y l.
Proof.
  induction l as [| x l IH]; simpl; [reflexivity |].
  rewrite insertByDate_In, IH. intuition.
Qed.

Lemma insertByDate_perm {A : Type} (key : A -> Date) (x : A) (l : list A) :
  Permutation (insertByDate key x l) (x :: l).
Proof.
  induction l as [| z l IH]; simpl; [reflexivity |].
  destruct (key x <=? key z); [reflexivity |].
  rewrite IH. apply perm_swap.
Qed.

Lemma sortByDate_perm {A : Type} (key : A -> Date) (l : list A) :
  Permutation (sortByDate key l) l.
Proof.
  induction l as [| x l IH]; simpl; [reflexivity |].
  now rewrite insertByDate_perm, IH.
Qed.

Lemma sortByDate_nil_inv {A : Type} (key : A -> Date) (l : list A) :
  sortByDate key l = [] -> l = [].
Proof.
  intros H. apply Permutation_nil. rewrite <- H.
  apply sortByDate_perm.
Qed.

(** ** Sums and averages *)

Local Open Scope Q_scope.

Lemma fold_left_sumQ {A : Type} (g : A -> Q) (l : list A) :
  forall a, fold_left (fun acc x => acc + g x) l a == a + sumQ g l.
Proof.
  induction l as [| x l IH]; intros a; simpl; [lra |].
  rewrite IH. lra.
Qed.

Lemma sumQ_bounds {A : Type} (g : A -> Q) (lo hi : Q) (l : list A) :
  (forall x, In x l -> lo <= g x /\ g x <= hi) ->
  lo * lengthQ l <= sumQ g l /\ sumQ g l <= hi * lengthQ l.
Proof.
  unfold lengthQ. induction l as [| x l IH]; intros H.
  - change (inject_Z (Z.of_nat (List.length (@nil A)))) with 0.
    simpl sumQ. lra.
  - destruct (H x (or_introl eq_refl)) as [Hlo Hhi].
    destruct IH as [IHlo IHhi]; [intros y Hy; apply H; now right |].
    change (List.length (x :: l)) with (S (List.length l)).
    rewrite Nat2Z.inj_succ, <- Z.add_1_r, inject_Z_plus.
    change (inject_Z 1) with 1. simpl sumQ. lra.
Qed.

Lemma lengthQ_pos {A : Type} (l : list A) : l <> [] -> 0 < lengthQ l.
Proof.
  destruct l as [| x l]; [congruence | intros _].
  unfold lengthQ. change 0 with (inject_Z 0). rewrite <- Zlt_Qlt.
  simpl List.length. lia.
Qed.

Lemma sumQ_nonneg {A : Type} (g : A -> Q) (l : list A) :
  (forall x, In x l -> 0 <= g x) -> 0 <= sumQ g l.
Proof.
  induction l as [| x l IH]; simpl; intros H; [lra |].
  pose proof (H x (or_introl eq_refl)).
  assert (0 <= sumQ g l) by (apply IH; intros y Hy; apply H; now right).
  lra.
Qed.

(** The mean of values lying in an interval lies in that interval. *)
Lemma average_bounds {A : Type} (g : A -> Q) (lo hi : Q) (l : list A) :
  l <> [] ->
  (forall x, In x l -> lo <= g x /\ g x <= hi) ->
  lo <= fold_left (fun acc x => acc + g x) l 0 / lengthQ l
  /\ fold_left (fun acc x => acc + g x) l 0 / lengthQ l <= hi.
Proof.
  intros Hne Hg.
  pose proof (lengthQ_pos l Hne) as Hn.
  destruct (sumQ_bounds g lo hi l Hg) as [Hlo Hhi].
  pose proof (fold_left_sumQ g l 0) as Hsum.
  split.
  - apply Qle_shift_div_l; [exact Hn | lra].
  - apply Qle_shift_div_r; [exact Hn | lra].
Qed.

(** ** KPI aggregation over a non-empty history *)

Lemma fold_addToTotals (l : list RevenueData) :
  forall t,
    let t' := fold_left addToTotals l t in
    t_totalRevenue t'
    = fold_left (fun acc d => acc + orZero (totalRevenue d)) l
                (t_totalRevenue t)
    /\ t_totalRoomRevenue t'
       = fold_left (fun acc d => acc + orZero (roomRevenue d)) l
                   (t_totalRoomRevenue t)
    /\ t_totalFBRevenue t'
       = fold_left (fun acc d => acc + orZero (foodBeverageRevenue d)) l
                   (t_totalFBRevenue t)
    /\ t_totalSpaRevenue t'
       = fold_left (fun acc d => acc + orZero (spaRevenue d)) l
                   (t_totalSpaRevenue t)
    /\ t_totalRetailRevenue t'
       = fold_left (fun acc d => acc + orZero (retailRevenue d)) l
                   (t_totalRetailRevenue t)
    /\ t_totalOtherRevenue t'
       = fold_left (fun acc d => acc + orZero (otherRevenue d)) l
                   (t_totalOtherRevenue t)
    /\ t_totalOccupancy t'
       = fold_left (fun acc d => acc + orZero (occupancyRate d)) l
                   (t_totalOccupancy t)
    /\ t_totalADR t'
       = fold_left (fun acc d => acc + orZero (adr d)) l (t_totalADR t)
    /\ t_totalRevPAR t'
       = fold_left (fun acc d => acc + orZero (revPAR d)) l
                   (t_totalRevPAR t).
Proof.
  induction l as [| d l IH]; intros t; simpl.
  - repeat split.
  - exact (IH (addToTotals t d)).
Qed.

Lemma calculateKPIs_nonempty (db : Database) (hotelId : ObjectId)
  (startDate endDate : Date) :
  let data := getRevenueData db hotelId startDate endDate in
  let t := fold_left addToTotals data zeroTotals in
  data <> [] ->
  calculateKPIs db hotelId startDate endDate
  = Ok {| kpi_totalRevenue := t_totalRevenue t;
          averageOccupancy := t_totalOccupancy t / lengthQ data;
          averageADR := t_totalADR t / lengthQ data;
          averageRevPAR := t_totalRevPAR t / lengthQ data;
          revenueBreakdown :=
            {| room := t_totalRoomRevenue t;
               foodBeverage := t_totalFBRevenue t;
               spa := t_totalSpaRevenue t;
               retail := t_totalRetailRevenue t;
               other := t_totalOtherRevenue t |} |}.
Proof.
  intros data t Hne. unfold calculateKPIs. fold data.
  destruct data as [| d l] eqn:E; [congruence | reflexivity].
Qed.

(** X2.  Whenever [calculateKPIs] returns, its averages stay within the
    natural range of the fetched records (a missing field counting as 0):
    averageOccupancy lies between 0 and 100 when every occupancyRate does,
    averageADR is non-negative when every adr is, and averageRevPAR is
    non-negative when every revPAR is. *)
Theorem calculateKPIs_average_bounds (db : Database) (hotelId : ObjectId)
  (startDate endDate : Date) (k : KPIs) :
  calculateKPIs db hotelId startDate endDate = Ok k ->
  ((forall d, In d (getRevenueData db hotelId startDate endDate) ->
              0 <= orZero (occupancyRate d) /\ orZero (occupancyRate d) <= 100)
   -> 0 <= averageOccupancy k /\ averageOccupancy k <= 100)
  /\ ((forall d, In d (getRevenueData db hotelId startDate endDate) ->
                 0 <= orZero (adr d))
      -> 0 <= averageADR k)
  /\ ((forall d, In d (getRevenueData db hotelId startDate endDate) ->
                 0 <= orZero (revPAR d))
      -> 0 <= averageRevPAR k).
Proof.
  intros Hk.
  destruct (getRevenueData db hotelId startDate endDate) as [| d0 l] eqn:E.
  - unfold calculateKPIs in Hk. rewrite E in Hk. injection Hk as <-.
    cbn [averageOccupancy averageADR averageRevPAR].
    split; [intros _; split; discriminate |].
    split; intros _; discriminate.
  - assert (Hne : getRevenueData db hotelId startDate endDate <> [])
      by (rewrite E; discriminate).
    rewrite (calculateKPIs_nonempty _ _ _ _ Hne) in Hk.
    injection Hk as <-. cbn [averageOccupancy averageADR averageRevPAR].
    destruct (fold_addToTotals (getRevenueData db hotelId startDate endDate)
                zeroTotals)
      as (_ & _ & _ & _ & _ & _ & Hocc & Hadr & Hrev).
    simpl in Hocc, Hadr, Hrev. rewrite Hocc, Hadr, Hrev. rewrite E in *.
    pose proof (lengthQ_pos (d0 :: l) ltac:(discriminate)) as Hn.
    split; [| split]; intros Hfield.
    + now apply average_bounds.
    + apply Qle_shift_div_l; [exact Hn |].
      rewrite fold_left_sumQ.
      pose proof (sumQ_nonneg (fun d => orZero (adr d)) (d0 :: l) Hfield).
      lra.
    + apply Qle_shift_div_l; [exact Hn |].
      rewrite fold_left_sumQ.
      pose proof (sumQ_nonneg (fun d => orZero (revPAR d)) (d0 :: l) Hfield).
      lra.
Qed.

Lemma calculateKPIs_average_bounds_witness :
  exists k,
    calculateKPIs sampleDb sampleHotel 0%Z saturday = Ok k
    /\ 0 <= averageOccupancy k /\ averageOccupancy k <= 100.
Proof.
  eexists. split; [vm_compute; reflexivity |].
  apply (calculateKPIs_average_bounds sampleDb sampleHotel 0%Z saturday _
           ltac:(vm_compute; reflexivity)).
  intros d Hd. vm_compute in Hd. destruct Hd as [<- | []].
  split; vm_compute; discriminate.
Defined.

(** ** The forecast over an empty history *)

Lemma occupancyADRFactor_low (x : Q) : x <= 40 -> occupancyADRFactor x = 0.8.
Proof.
  intros Hx. unfold occupancyADRFactor.
  assert (H80 : Qle_bool x 80 = true) by (apply Qle_bool_iff; lra).
  assert (H60 : Qle_bool x 60 = true) by (apply Qle_bool_iff; lra).
  assert (H40 : Qle_bool x 40 = true) by (apply Qle_bool_iff; lra).
  now rewrite H80, H60, H40.
Qed.

Lemma occupancyADRFactor_pos (x : Q) : 0 < occupancyADRFactor x.
Proof.
  unfold occupancyADRFactor.
  destruct (negb _); [reflexivity |].
  destruct (negb _); [reflexivity |].
  destruct (negb _); reflexivity.
Qed.

Lemma clamp_zero (x : Q) : x == 0 -> Math_min 100 (Math_max 0 x) == 0.
Proof.
  intros Hx. unfold Math_min, Math_max.
  destruct (Qle_bool 0 x) eqn:H0.
  - destruct (Qle_bool 100 x) eqn:H100; [| exact Hx].
    apply Qle_bool_iff in H100. lra.
  - destruct (Qle_bool 100 0) eqn:H100; [| reflexivity].
    apply Qle_bool_iff in H100. lra.
Qed.

Lemma forecastDay_no_history (utcOffset : Z) (declare : Q -> binding)
  (marketData : list MarketData) (d : Date) (p : Prediction) :
  forecastDay utcOffset declare [] marketData 0 d = Ok p ->
  predictedOccupancy p == 0
  /\ predictedADR p == 80 * seasonalityFactor (factors p)
  /\ predictedRevPAR p == 0.
Proof.
  unfold forecastDay. intros H.
  apply bind_Ok_inv in H as (impact & _ & H).
  injection H as <-. cbn [predictedOccupancy predictedADR predictedRevPAR
                          factors seasonalityFactor].
  match goal with
  | |- Math_min 100 (Math_max 0 ?x) == 0 /\ _ =>
      assert (Hocc : Math_min 100 (Math_max 0 x) == 0)
        by (apply clamp_zero; ring);
      set (occ := Math_min 100 (Math_max 0 x)) in *
  end.
  rewrite (occupancyADRFactor_low occ) by lra.
  change (0 <? List.length (@nil RevenueData))%nat with false. cbv iota.
  split; [exact Hocc |]. split; [ring |].
  rewrite Hocc. field.
Qed.

Lemma predictDemand_no_history_revPAR (utcOffset : Z) (db : Database)
  (hotelId : ObjectId) (targetDate : Date) (daysAhead : Z)
  (f : DemandForecast) :
  getRevenueData db hotelId (addDays targetDate (-90)) targetDate = [] ->
  predictDemand utcOffset db hotelId targetDate daysAhead = Ok f ->
  Forall (fun p => predictedRevPAR p == 0) (predictions f).
Proof.
  intros Hempty. apply predictDemand_days. rewrite Hempty.
  intros d p Hp.
  change (0 <? List.length (@nil RevenueData))%nat with false in Hp.
  now apply forecastDay_no_history in Hp.
Qed.

(** X4.  With no revenue record in the 90 days up to the target date, every
    prediction [predictDemand] returns has occupancy 0, ADR equal to 80
    times the day's seasonal factor (the default base ADR 100 at the lowest
    occupancy factor 0.8) and RevPAR 0. *)
Theorem predictDemand_no_history (utcOffset : Z) (db : Database)
  (hotelId : ObjectId) (targetDate : Date) (daysAhead : Z)
  (f : DemandForecast) :
  getRevenueData db hotelId (addDays targetDate (-90)) targetDate = [] ->
  predictDemand utcOffset db hotelId targetDate daysAhead = Ok f ->
  Forall (fun p => predictedOccupancy p == 0
                   /\ predictedADR p == 80 * seasonalityFactor (factors p)
                   /\ predictedRevPAR p == 0)
         (predictions f).
Proof.
  intros Hempty. apply predictDemand_days. rewrite Hempty.
  intros d p Hp.
  change (0 <? List.length (@nil RevenueData))%nat with false in Hp.
  now apply forecastDay_no_history in Hp.
Qed.

Lemma predictDemand_no_history_witness :
  exists f,
    predictDemand 0 emptyDb sampleHotel wednesday 2 = Ok f
    /\ List.length (predictions f) = 2%nat
    /\ Forall (fun p => predictedOccupancy p == 0
                        /\ predictedADR p == 80 * seasonalityFactor (factors p)
                        /\ predictedRevPAR p == 0)
              (predictions f).
Proof.
  eexists. split; [vm_compute; reflexivity |].
  split; [reflexivity |].
  apply (predictDemand_no_history 0 emptyDb sampleHotel wednesday 2).
  - reflexivity.
  - vm_compute; reflexivity.
Defined.

(** ** Events and the forecast window *)

(** X5.  Every prediction [predictDemand] returns has eventsImpact exactly
    1.0: a forecast that returns has not counted any event. *)
Theorem predictDemand_eventsImpact_one (utcOffset : Z) (db : Database)
  (hotelId : ObjectId) (targetDate : Date) (daysAhead : Z)
  (f : DemandForecast) :
  predictDemand utcOffset db hotelId targetDate daysAhead = Ok f ->
  Forall (fun p => eventsImpact (factors p) = 1.0) (predictions f).
Proof.
  apply predictDemand_days. intros d p Hp.
  match type of Hp with
  | forecastDay _ _ ?rev ?mkt ?avg _ = _ =>
      destruct (dayScores utcOffset mkt d) eqn:Hs;
      [ rewrite (forecastDay_const_scoring utcOffset rev mkt avg d Hs) in Hp;
        discriminate Hp
      | destruct (forecastDay_const_quiet utcOffset rev mkt avg d Hs)
          as (p' & Hp' & Hone) ]
  end.
  rewrite Hp in Hp'. injection Hp' as <-. exact Hone.
Qed.

Lemma predictDemand_eventsImpact_one_witness :
  exists f,
    predictDemand 0 sampleDb sampleHotel wednesday 3 = Ok f
    /\ List.length (predictions f) = 3%nat
    /\ Forall (fun p => eventsImpact (factors p) = 1.0) (predictions f).
Proof.
  eexists. split; [vm_compute; reflexivity |].
  split; [reflexivity |].
  apply (predictDemand_eventsImpact_one 0 sampleDb sampleHotel wednesday 3).
  vm_compute; reflexivity.
Defined.

Local Open Scope Z_scope.

(** ** Rates of a forecast *)

Local Open Scope Q_scope.

Lemma forecastDay_rates (utcOffset : Z) (declare : Q -> binding)
  (revenueData : list RevenueData) (marketData : list MarketData)
  (avgOccupancy : Q) (d : Date) (p : Prediction) :
  (forall data, In data revenueData -> 0 <= orZero (adr data)) ->
  forecastDay utcOffset declare revenueData marketData avgOccupancy d
  = Ok p ->
  0 <= predictedADR p /\ 0 <= predictedRevPAR p.
Proof.
  intros Hadr H.
  pose proof (forecastDay_Ok_inv _ _ _ _ _ _ _ H)
    as (_ & (Hlo & Hhi) & Hrev & Hseason).
  assert (HADR : 0 <= predictedADR p).
  { unfold forecastDay in H.
    apply bind_Ok_inv in H as (impact & _ & H).
    injection H as <-. cbn [predictedADR].
    repeat apply Qmult_le_0_compat.
    - destruct (0 <? List.length revenueData)%nat eqn:E; [| lra].
      apply Qle_shift_div_l.
      + apply lengthQ_pos. intros ->. discriminate E.
      + rewrite fold_left_sumQ.
        pose proof (sumQ_nonneg (fun data => orZero (adr data))
                      revenueData Hadr).
        lra.
    - apply Qlt_le_weak, occupancyADRFactor_pos.
    - apply Qlt_le_weak, seasonOfMonth_pos. }
  rewrite Hrev. split; [exact HADR |].
  assert (Hprod : 0 <= predictedOccupancy p * predictedADR p)
    by (now apply Qmult_le_0_compat).
  apply Qle_shift_div_l; [reflexivity | lra].
Qed.

(** X7.  When no fetched revenue record has a negative adr, no prediction
    [predictDemand] returns has a negative ADR or a negative RevPAR. *)
Theorem predictDemand_rates_nonneg (utcOffset : Z) (db : Database)
  (hotelId : ObjectId) (targetDate : Date) (daysAhead : Z)
  (f : DemandForecast) :
  (forall data,
      In data (getRevenueData db hotelId (addDays targetDate (-90))
                              targetDate) ->
      0 <= orZero (adr data)) ->
  predictDemand utcOffset db hotelId targetDate daysAhead = Ok f ->
  Forall (fun p => 0 <= predictedADR p /\ 0 <= predictedRevPAR p)
         (predictions f).
Proof.
  intros Hadr. apply predictDemand_days. intros d p Hp.
  exact (forecastDay_rates _ _ _ _ _ _ _ Hadr Hp).
Qed.

Lemma predictDemand_rates_nonneg_witness :
  exists f,
    predictDemand 0 sampleDb sampleHotel wednesday 3 = Ok f
    /\ List.length (predictions f) = 3%nat
    /\ Forall (fun p => 0 <= predictedADR p /\ 0 <= predictedRevPAR p)
              (predictions f).
Proof.
  eexists. split; [vm_compute; reflexivity |].
  split; [reflexivity |].
  apply (predictDemand_rates_nonneg 0 sampleDb sampleHotel wednesday 3).
  - intros data Hdata. vm_compute in Hdata. destruct Hdata as [<- | []].
    vm_compute. discriminate.
  - vm_compute; reflexivity.
Defined.

(** ** Errors of [recommendPricing] *)

(** X8.  For a hotel id with no Hotel document, [recommendPricing] never
    returns a result; the forecast runs before the hotel is looked up, so
    whenever the forecast for the same arguments returns, the error thrown
    is "Hotel not found". *)
Theorem recommendPricing_unknown_hotel (utcOffset : Z) (db : Database)
  (hotelId : ObjectId) (targetDate : Date) (daysAhead : Z) :
  Hotel_findById db hotelId = false ->
  (forall r,
      recommendPricing utcOffset db hotelId targetDate daysAhead <> Ok r)
  /\ (forall f,
         predictDemand utcOffset db hotelId targetDate daysAhead = Ok f ->
         recommendPricing utcOffset db hotelId targetDate daysAhead
         = Throw (Error "Hotel not found")).
Proof.
  intros Hh. unfold recommendPricing.
  destruct (predictDemand utcOffset db hotelId targetDate daysAhead)
    as [f | e]; cbn [bind]; rewrite ?Hh; cbn [negb];
    split; intros; congruence.
Qed.

Lemma recommendPricing_unknown_hotel_witness :
  Hotel_findById sampleDb unknownHotel = false
  /\ (exists f, predictDemand 0 sampleDb unknownHotel wednesday 3 = Ok f)
  /\ recommendPricing 0 sampleDb unknownHotel wednesday 3
     = Throw (Error "Hotel not found").
Proof.
  split; [reflexivity |].
  split; [eexists; vm_compute; reflexivity |].
  eapply (recommendPricing_unknown_hotel 0 sampleDb unknownHotel wednesday 3).
  - reflexivity.
  - vm_compute; reflexivity.
Defined.

(** ** The price table *)

Lemma demandFactor_cases (p : Prediction) :
  demandFactor p = 1.4 \/ demandFactor p = 1.2
  \/ demandFactor p = 1.0 \/ demandFactor p = 0.9.
Proof.
  unfold demandFactor.
  destruct (negb _); [now left |].
  destruct (negb _); [now right; left |].
  destruct (negb _); [now right; right; left | now right; right; right].
Qed.

(** The four prices of a day, in the order of [roomTypes]. *)
Lemma recommendDay_prices (p : Prediction) :
  map recommendedPrice (rec_roomTypes (recommendDay p))
  = map (fun rt => Math_round (basePrice rt * demandFactor p
                               * roomTypeFactor rt
                               * seasonalityFactor (factors p)))
        roomTypes.
Proof. reflexivity. Qed.

Lemma recommendDay_price_table (p : Prediction) :
  (seasonalityFactor (factors p) = 1.3
   \/ seasonalityFactor (factors p) = 1.2
   \/ seasonalityFactor (factors p) = 1.1
   \/ seasonalityFactor (factors p) = 0.9) ->
  StronglySorted Z.lt (map recommendedPrice (rec_roomTypes (recommendDay p)))
  /\ Forall (fun price => (81 <= price <= 828)%Z)
            (map recommendedPrice (rec_roomTypes (recommendDay p))).
Proof.
  intros Hs. rewrite recommendDay_prices.
  destruct (demandFactor_cases p) as [Hd | [Hd | [Hd | Hd]]]; rewrite Hd;
    destruct Hs as [Hs | [Hs | [Hs | Hs]]]; rewrite Hs;
    vm_compute; split; repeat constructor; discriminate.
Qed.

Lemma predictDemand_season_cases (utcOffset : Z) (db : Database)
  (hotelId : ObjectId) (targetDate : Date) (daysAhead : Z)
  (f : DemandForecast) :
  predictDemand utcOffset db hotelId targetDate daysAhead = Ok f ->
  Forall (fun p => seasonalityFactor (factors p) = 1.3
                   \/ seasonalityFactor (factors p) = 1.2
                   \/ seasonalityFactor (factors p) = 1.1
                   \/ seasonalityFactor (factors p) = 0.9)
         (predictions f).
Proof.
  apply predictDemand_days. intros d p Hp.
  apply forecastDay_Ok_inv in Hp as (_ & _ & _ & ->).
  apply seasonOfMonth_cases.
Qed.

Lemma predictDemand_occupancy_bounds_aux (utcOffset : Z) (db : Database)
  (hotelId : ObjectId) (targetDate : Date) (daysAhead : Z)
  (f : DemandForecast) :
  predictDemand utcOffset db hotelId targetDate daysAhead = Ok f ->
  Forall (fun p => 0 <= predictedOccupancy p /\ predictedOccupancy p <= 100)
         (predictions f).
Proof.
  apply predictDemand_days. intros d p Hp.
  apply forecastDay_Ok_inv in Hp. tauto.
Qed.

Lemma recommendPricing_days (utcOffset : Z) (db : Database)
  (hotelId : ObjectId) (targetDate : Date) (daysAhead : Z)
  (r : PricingRecommendations) (P : DailyRecommendation -> Prop) :
  (forall p,
      (seasonalityFactor (factors p) = 1.3
       \/ seasonalityFactor (factors p) = 1.2
       \/ seasonalityFactor (factors p) = 1.1
       \/ seasonalityFactor (factors p) = 0.9) ->
      (0 <= predictedOccupancy p /\ predictedOccupancy p <= 100) ->
      P (recommendDay p)) ->
  recommendPricing utcOffset db hotelId targetDate daysAhead = Ok r ->
  Forall P (recommendations r).
Proof.
  intros HP H. apply recommendPricing_Ok_inv in H as (f & Hf & _ & ->).
  pose proof (predictDemand_season_cases _ _ _ _ _ _ Hf) as Hs.
  pose proof (predictDemand_occupancy_bounds_aux utcOffset db hotelId
                targetDate daysAhead f Hf) as Ho.
  rewrite Forall_forall in Hs, Ho. apply Forall_forall.
  intros day Hday. apply in_map_iff in Hday as (p & <- & Hp).
  apply HP; [now apply Hs | now apply Ho].
Qed.

(** X9.  On every day of a result [recommendPricing] returns, the four
    recommended prices rise strictly with the room class: Standard below
    Deluxe below Suite below Executive Suite. *)
Theorem recommendPricing_prices_rise (utcOffset : Z) (db : Database)
  (hotelId : ObjectId) (targetDate : Date) (daysAhead : Z)
  (r : PricingRecommendations) :
  recommendPricing utcOffset db hotelId targetDate daysAhead = Ok r ->
  Forall (fun day =>
            map roomType (rec_roomTypes day)
            = ["Standard"; "Deluxe"; "Suite"; "Executive Suite"]%string
            /\ StronglySorted Z.lt
                 (map recommendedPrice (rec_roomTypes day)))
         (recommendations r).
Proof.
  apply recommendPricing_days. intros p Hs _.
  split; [reflexivity | apply (recommendDay_price_table p Hs)].
Qed.

Lemma recommendPricing_prices_rise_witness :
  exists r,
    recommendPricing 0 sampleDb sampleHotel wednesday 2 = Ok r
    /\ List.length (recommendations r) = 2%nat
    /\ Forall (fun day =>
                 map roomType (rec_roomTypes day)
                 = ["Standard"; "Deluxe"; "Suite"; "Executive Suite"]%string
                 /\ StronglySorted Z.lt
                      (map recommendedPrice (rec_roomTypes day)))
              (recommendations r).
Proof.
  eexists. split; [vm_compute; reflexivity |].
  split; [reflexivity |].
  apply (recommendPricing_prices_rise 0 sampleDb sampleHotel wednesday 2).
  vm_compute; reflexivity.
Defined.

(** X10.  Every recommended price in a result [recommendPricing] returns
    lies between 81 (Standard at the lowest demand and seasonal factors) and
    828 (Executive Suite at the highest). *)
Theorem recommendPricing_price_bounds (utcOffset : Z) (db : Database)
  (hotelId : ObjectId) (targetDate : Date) (daysAhead : Z)
  (r : PricingRecommendations) :
  recommendPricing utcOffset db hotelId targetDate daysAhead = Ok r ->
  Forall (fun day =>
            Forall (fun room => (81 <= recommendedPrice room <= 828)%Z)
                   (rec_roomTypes day))
         (recommendations r).
Proof.
  apply recommendPricing_days. intros p Hs _.
  destruct (recommendDay_price_table p Hs) as [_ Hb].
  now rewrite Forall_map in Hb.
Qed.

Lemma recommendPricing_price_bounds_witness :
  exists r,
    recommendPricing 0 sampleDb sampleHotel wednesday 2 = Ok r
    /\ List.length (recommendations r) = 2%nat
    /\ Forall (fun day =>
                 Forall (fun room => (81 <= recommendedPrice room <= 828)%Z)
                        (rec_roomTypes day))
              (recommendations r).
Proof.
  eexists. split; [vm_compute; reflexivity |].
  split; [reflexivity |].
  apply (recommendPricing_price_bounds 0 sampleDb sampleHotel wednesday 2).
  vm_compute; reflexivity.
Defined.

Lemma recommendRoom_revenue_bounds (p : Prediction) (rt : RoomType) :
  (0 <= recommendedPrice (recommendRoom p rt))%Z ->
  0 <= predictedOccupancy p /\ predictedOccupancy p <= 100 ->
  0 <= expectedRevenue (recommendRoom p rt)
  /\ expectedRevenue (recommendRoom p rt)
     <= inject_Z (recommendedPrice (recommendRoom p rt)).
Proof.
  intros Hn [Hlo Hhi].
  rewrite recommendRoom_expectedRevenue.
  set (n := inject_Z (recommendedPrice (recommendRoom p rt))).
  assert (Hq : 0 <= n) by (unfold n; rewrite Zle_Qle in Hn; exact Hn).
  assert (H1 : 0 <= n * predictedOccupancy p)
    by (now apply Qmult_le_0_compat).
  assert (H2 : 0 <= n * (100 - predictedOccupancy p))
    by (apply Qmult_le_0_compat; [exact Hq | lra]).
  split.
  - apply Qle_shift_div_l; [reflexivity | lra].
  - apply Qle_shift_div_r; [reflexivity | lra].
Qed.

(** X11.  Every room recommendation in a result [recommendPricing] returns
    has an expectedRevenue between 0 and its recommendedPrice. *)
Theorem recommendPricing_revenue_bounds (utcOffset : Z) (db : Database)
  (hotelId : ObjectId) (targetDate : Date) (daysAhead : Z)
  (r : PricingRecommendations) :
  recommendPricing utcOffset db hotelId targetDate daysAhead = Ok r ->
  Forall (fun day =>
            Forall (fun room =>
                      0 <= expectedRevenue room
                      /\ expectedRevenue room
                         <= inject_Z (recommendedPrice room))
                   (rec_roomTypes day))
         (recommendations r).
Proof.
  apply recommendPricing_days. intros p Hs Ho.
  change (rec_roomTypes (recommendDay p))
    with (map (recommendRoom p) roomTypes).
  apply Forall_forall. intros room Hroom.
  apply in_map_iff in Hroom as (rt & <- & Hrt).
  apply recommendRoom_revenue_bounds; [| exact Ho].
  apply recommendRoom_price_nonneg; [| exact Hrt].
  destruct Hs as [-> | [-> | [-> | ->]]]; reflexivity.
Qed.

Lemma recommendPricing_revenue_bounds_witness :
  exists r,
    recommendPricing 0 sampleDb sampleHotel wednesday 2 = Ok r
    /\ List.length (recommendations r) = 2%nat
    /\ Forall (fun day =>
                 Forall (fun room =>
                           0 <= expectedRevenue room
                           /\ expectedRevenue room
                              <= inject_Z (recommendedPrice room))
                        (rec_roomTypes day))
              (recommendations r).
Proof.
  eexists. split; [vm_compute; reflexivity |].
  split; [reflexivity |].
  apply (recommendPricing_revenue_bounds 0 sampleDb sampleHotel wednesday 2).
  vm_compute; reflexivity.
Defined.

(** ** Arithmetic of the simulation *)

Lemma Math_min_spec (a b : Q) :
  Math_min a b <= a /\ Math_min a b <= b
  /\ (a <= b -> Math_min a b == a) /\ (b <= a -> Math_min a b == b).
Proof.
  unfold Math_min. destruct (Qle_bool a b) eqn:E.
  - apply Qle_bool_iff in E. repeat split; intros; lra.
  - apply Qle_bool_false in E. repeat split; intros; lra.
Qed.

Lemma clamp_id (x : Q) :
  0 <= x -> x <= 100 -> Math_min 100 (Math_max 0 x) == x.
Proof.
  intros Hlo Hhi. unfold Math_min, Math_max.
  assert (H0 : Qle_bool 0 x = true) by now apply Qle_bool_iff.
  rewrite H0. destruct (Qle_bool 100 x) eqn:E; [| reflexivity].
  apply Qle_bool_iff in E. lra.
Qed.

Lemma clamp_nonpos (x : Q) : x <= 0 -> Math_min 100 (Math_max 0 x) == 0.
Proof.
  intros Hx. unfold Math_min, Math_max.
  destruct (Qle_bool 0 x) eqn:H0.
  - apply Qle_bool_iff in H0.
    destruct (Qle_bool 100 x) eqn:E; [apply Qle_bool_iff in E; lra | lra].
  - destruct (Qle_bool 100 0) eqn:E; [| reflexivity].
    apply Qle_bool_iff in E. lra.
Qed.

Lemma marketingImpact_Some (scenario : Scenario) (m : Q) :
  marketingSpend scenario = Some m ->
  marketingImpact scenario = Some (Math_min 0.1 (m / 1000 * 0.02)).
Proof. unfold marketingImpact. intros ->. reflexivity. Qed.

(** X12.  The demand lift [runSimulation] credits to a marketing spend m
    is 0.02 per 1000 spent (m * 0.00002) up to a spend of 5000, exactly 0.1
    from 5000 on, and so never more than 0.1. *)
Theorem marketingImpact_capped (scenario : Scenario) (m : Q) :
  marketingSpend scenario = Some m ->
  exists v,
    marketingImpact scenario = Some v
    /\ v <= 0.1
    /\ (m <= 5000 -> v == m * 0.00002)
    /\ (5000 <= m -> v == 0.1).
Proof.
  intros Hm. rewrite (marketingImpact_Some scenario m Hm).
  eexists. split; [reflexivity |].
  destruct (Math_min_spec 0.1 (m / 1000 * 0.02)) as (Ha & _ & Hl & Hr).
  assert (Heq : m / 1000 * 0.02 == m * 0.00002) by field.
  split; [exact Ha |]. split; intros Hcmp.
  - rewrite Hr; [exact Heq | lra].
  - apply Hl. lra.
Qed.

Lemma marketingImpact_capped_witness :
  exists v,
    marketingImpact fullCampaignScenario = Some v /\ v == 0.02.
Proof.
  destruct (marketingImpact_capped fullCampaignScenario 1000 eq_refl)
    as (v & Hv & _ & Hlow & _).
  exists v. split; [exact Hv |].
  rewrite Hlow; [reflexivity | discriminate].
Defined.

(** The simulated occupancy of a day, when the three scenario fields are
    numbers. *)
Lemma simulateDay_occupancy (scenario : Scenario) (p : Prediction)
  (pc m cc : Q) :
  priceChange scenario = Some pc ->
  marketingSpend scenario = Some m ->
  competitorPriceChange scenario = Some cc ->
  simulated (simulateDay scenario p)
  = let occ :=
      Math_min 100
        (Math_max 0
           (predictedOccupancy p
            * (1 + (pc * priceElasticity + Math_min 0.1 (m / 1000 * 0.02)
                    + cc * 0.3)))) in
    let newADR := predictedADR p * (1 + pc / 100) in
    {| occupancy := Some occ;
       m_adr := Some newADR;
       m_revPAR := Some (occ * newADR / 100) |}.
Proof.
  intros Hpc Hm Hcc.
  unfold simulateDay, demandChangeFromPrice, marketingImpact,
    competitorImpact.
  rewrite Hpc, Hm, Hcc. reflexivity.
Qed.

Lemma simulateDay_occupancy_NaN (scenario : Scenario) (p : Prediction) :
  priceChange scenario = None \/ marketingSpend scenario = None
  \/ competitorPriceChange scenario = None ->
  occupancy (simulated (simulateDay scenario p)) = NaN.
Proof.
  unfold simulateDay, demandChangeFromPrice, marketingImpact,
    competitorImpact.
  intros [H | [H | H]]; rewrite H; cbn [simulated occupancy].
  - reflexivity.
  - destruct (priceChange scenario); reflexivity.
  - destruct (priceChange scenario), (marketingSpend scenario); reflexivity.
Qed.

(** X13.  In every result [runSimulation] returns, the simulated occupancy
    of a day is a number between 0 and 100 when priceChange, marketingSpend
    and competitorPriceChange are all numbers, and [NaN] as soon as one of
    them is missing. *)
Theorem runSimulation_occupancy_clamped (utcOffset : Z) (db : Database)
  (hotelId : ObjectId) (scenario : Scenario) (r : SimulationResult) :
  runSimulation utcOffset db hotelId scenario = Ok r ->
  Forall (fun day =>
            match priceChange scenario, marketingSpend scenario,
                  competitorPriceChange scenario with
            | Some _, Some _, Some _ =>
                exists o, occupancy (simulated day) = Some o
                          /\ 0 <= o /\ o <= 100
            | _, _, _ => occupancy (simulated day) = NaN
            end)
         (dailyResults r).
Proof.
  intros H. apply runSimulation_Ok_inv in H as (f & _ & -> & _).
  apply Forall_forall. intros day Hday.
  apply in_map_iff in Hday as (p & <- & _).
  destruct (priceChange scenario) as [pc |] eqn:Hpc;
    [| apply simulateDay_occupancy_NaN; now left].
  destruct (marketingSpend scenario) as [m |] eqn:Hm;
    [| apply simulateDay_occupancy_NaN; now right; left].
  destruct (competitorPriceChange scenario) as [cc |] eqn:Hcc;
    [| apply simulateDay_occupancy_NaN; now right; right].
  rewrite (simulateDay_occupancy scenario p pc m cc Hpc Hm Hcc).
  eexists. split; [reflexivity |]. apply clamp_bounds.
Qed.

Lemma runSimulation_occupancy_clamped_witness :
  exists r day o,
    runSimulation 0 sampleDb sampleHotel fullCampaignScenario = Ok r
    /\ dailyResults r = [day]
    /\ occupancy (simulated day) = Some o /\ 0 <= o /\ o <= 100.
Proof.
  eexists. eexists.
  pose proof (runSimulation_occupancy_clamped 0 sampleDb sampleHotel
                fullCampaignScenario _ ltac:(vm_compute; reflexivity)) as H.
  apply Forall_inv in H. cbn match in H. destruct H as (o & Ho & Hb).
  exists o. split; [reflexivity |]. split; [reflexivity |].
  split; [exact Ho | exact Hb].
Defined.

(** ** Totals of a simulation *)

Lemma fold_jadd_sum {A : Type} (g : A -> jsnum) (h : A -> Q) (l : list A) :
  (forall x, In x l -> exists q, g x = Some q /\ q == h x) ->
  forall a, exists v,
    fold_left (fun sum x => jadd sum (g x)) l (Some a) = Some v
    /\ v == a + sumQ h l.
Proof.
  induction l as [| x l IH]; simpl; intros Hg a.
  - exists a. split; [reflexivity | lra].
  - destruct (Hg x (or_introl eq_refl)) as (q & -> & Hq). simpl.
    destruct (IH (fun y Hy => Hg y (or_intror Hy)) (a + q)) as (v & Hv & Hs).
    exists v. split; [exact Hv | lra].
Qed.

Lemma sumQ_map {A B : Type} (f : A -> B) (g : B -> Q) (l : list A) :
  sumQ g (map f l) = sumQ (fun x => g (f x)) l.
Proof.
  induction l as [| x l IH]; simpl; [reflexivity | now rewrite IH].
Qed.

Lemma sumQ_ext_In {A : Type} (g h : A -> Q) (l : list A) :
  (forall x, In x l -> g x == h x) -> sumQ g l == sumQ h l.
Proof.
  induction l as [| x l IH]; simpl; intros H; [reflexivity |].
  rewrite (H x (or_introl eq_refl)), IH; [reflexivity |].
  intros y Hy. apply H. now right.
Qed.

(** The baseline total of a simulation is the sum of the forecast RevPARs. *)
Lemma baselineTotal_sum (scenario : Scenario) (l : list Prediction)
  (sims : list DailyResult) :
  exists b,
    baselineTotalRevPAR (summarize scenario l sims) = Some b
    /\ b == sumQ predictedRevPAR l.
Proof.
  unfold summarize; cbn [baselineTotalRevPAR].
  destruct (fold_jadd_sum (fun p => num (predictedRevPAR p)) predictedRevPAR
              l (fun p _ => ex_intro _ (predictedRevPAR p)
                              (conj eq_refl (Qeq_refl _))) 0)
    as (b & Hb & Hs).
  exists b. split; [exact Hb | lra].
Qed.

Lemma summarize_zero_baseline (scenario : Scenario) (l : list Prediction)
  (sims : list DailyResult) :
  jeq (baselineTotalRevPAR (summarize scenario l sims)) (Some 0) ->
  percentRevPARChange (summarize scenario l sims) = NaN.
Proof.
  unfold summarize; cbn [baselineTotalRevPAR percentRevPARChange].
  destruct (fold_left _ l (num 0)) as [b |]; simpl; [| contradiction].
  intros Hb. apply Qeq_bool_iff in Hb.
  destruct (fold_left _ sims (num 0)) as [s |]; simpl; [| reflexivity].
  now rewrite Hb.
Qed.

(** X14.  In every result [runSimulation] returns, a baseline total RevPAR
    of 0 makes percentRevPARChange [NaN] (a division by zero), whatever the
    scenario; this is the case whenever there is no revenue record in the 90
    days up to startDate. *)
Theorem runSimulation_zero_baseline (utcOffset : Z) (db : Database)
  (hotelId : ObjectId) (scenario : Scenario) (r : SimulationResult) :
  runSimulation utcOffset db hotelId scenario = Ok r ->
  (jeq (baselineTotalRevPAR (summary r)) (Some 0) ->
   percentRevPARChange (summary r) = NaN)
  /\ (getRevenueData db hotelId (addDays (startDate scenario) (-90))
                     (startDate scenario) = [] ->
      jeq (baselineTotalRevPAR (summary r)) (Some 0)
      /\ percentRevPARChange (summary r) = NaN).
Proof.
  intros H. apply runSimulation_Ok_inv in H as (f & Hf & _ & ->).
  split; [apply summarize_zero_baseline |].
  intros Hempty.
  assert (Hzero : jeq (baselineTotalRevPAR
                         (summarize scenario (predictions f)
                            (map (simulateDay scenario) (predictions f))))
                      (Some 0)).
  { destruct (baselineTotal_sum scenario (predictions f)
                (map (simulateDay scenario) (predictions f)))
      as (b & -> & Hb).
    simpl. rewrite Hb.
    pose proof (predictDemand_no_history_revPAR _ _ _ _ _ _ Hempty Hf)
      as Hall.
    rewrite Forall_forall in Hall.
    rewrite (sumQ_ext_In predictedRevPAR (fun _ => 0)).
    - clear. induction (predictions f) as [| p l IH]; simpl; [reflexivity |].
      rewrite IH. reflexivity.
    - intros p Hp. now apply Hall. }
  split; [exact Hzero | now apply summarize_zero_baseline].
Qed.

Lemma runSimulation_zero_baseline_witness :
  exists r,
    runSimulation 0 emptyDb sampleHotel fullCampaignScenario = Ok r
    /\ List.length (dailyResults r) = 1%nat
    /\ jeq (baselineTotalRevPAR (summary r)) (Some 0)
    /\ percentRevPARChange (summary r) = NaN.
Proof.
  eexists. split; [vm_compute; reflexivity |].
  split; [reflexivity |].
  apply (runSimulation_zero_baseline 0 emptyDb sampleHotel
           fullCampaignScenario _ ltac:(vm_compute; reflexivity)).
  reflexivity.
Defined.

(** ** The neutral scenario *)

Lemma predictDemand_day_facts (utcOffset : Z) (db : Database)
  (hotelId : ObjectId) (targetDate : Date) (daysAhead : Z)
  (f : DemandForecast) :
  predictDemand utcOffset db hotelId targetDate daysAhead = Ok f ->
  Forall (fun p => (0 <= predictedOccupancy p /\ predictedOccupancy p <= 100)
                   /\ predictedRevPAR p
                      = predictedOccupancy p * predictedADR p / 100)
         (predictions f).
Proof.
  apply predictDemand_days. intros d p Hp.
  apply forecastDay_Ok_inv in Hp. tauto.
Qed.

Lemma simulateDay_neutral (scenario : Scenario) (p : Prediction) :
  jeq (priceChange scenario) (Some 0) ->
  jeq (marketingSpend scenario) (Some 0) ->
  jeq (competitorPriceChange scenario) (Some 0) ->
  0 <= predictedOccupancy p /\ predictedOccupancy p <= 100 ->
  predictedRevPAR p = predictedOccupancy p * predictedADR p / 100 ->
  exists o a v,
    simulated (simulateDay scenario p)
    = {| occupancy := Some o; m_adr := Some a; m_revPAR := Some v |}
    /\ o == predictedOccupancy p
    /\ a == predictedADR p
    /\ v == predictedRevPAR p.
Proof.
  intros Hpc Hm Hcc [Hlo Hhi] Hrev.
  destruct (priceChange scenario) as [pc |] eqn:Epc; [| contradiction].
  destruct (marketingSpend scenario) as [m |] eqn:Em; [| contradiction].
  destruct (competitorPriceChange scenario) as [cc |] eqn:Ecc;
    [| contradiction].
  simpl in Hpc, Hm, Hcc.
  rewrite (simulateDay_occupancy scenario p pc m cc Epc Em Ecc). cbv zeta.
  do 3 eexists. split; [reflexivity |].
  destruct (Math_min_spec 0.1 (m / 1000 * 0.02)) as (_ & _ & _ & Hmin).
  assert (Hmi : Math_min 0.1 (m / 1000 * 0.02) == 0)
    by (rewrite Hmin; rewrite Hm; [reflexivity | discriminate]).
  assert (Harg : predictedOccupancy p
                 * (1 + (pc * priceElasticity
                         + Math_min 0.1 (m / 1000 * 0.02) + cc * 0.3))
                 == predictedOccupancy p)
    by (rewrite Hpc, Hmi, Hcc; ring).
  assert (Hocc : Math_min 100
                   (Math_max 0
                      (predictedOccupancy p
                       * (1 + (pc * priceElasticity
                               + Math_min 0.1 (m / 1000 * 0.02)
                               + cc * 0.3))))
                 == predictedOccupancy p).
  { rewrite clamp_id; [exact Harg | rewrite Harg; exact Hlo
                      | rewrite Harg; exact Hhi]. }
  assert (Hadr : predictedADR p * (1 + pc / 100) == predictedADR p)
    by (rewrite Hpc; field).
  split; [exact Hocc |]. split; [exact Hadr |].
  rewrite Hocc, Hadr, Hrev. reflexivity.
Qed.

(** X15.  A scenario that changes nothing (priceChange, marketingSpend and
    competitorPriceChange all 0) reproduces the baseline: in every result
    [runSimulation] returns, each day's simulated occupancy, ADR and RevPAR
    equal the baseline ones, the total RevPAR change is 0 and roi is
    null. *)
Theorem runSimulation_neutral (utcOffset : Z) (db : Database)
  (hotelId : ObjectId) (scenario : Scenario) (r : SimulationResult) :
  jeq (priceChange scenario) (Some 0) ->
  jeq (marketingSpend scenario) (Some 0) ->
  jeq (competitorPriceChange scenario) (Some 0) ->
  runSimulation utcOffset db hotelId scenario = Ok r ->
  Forall (fun day =>
            jeq (occupancy (simulated day)) (occupancy (baseline day))
            /\ jeq (m_adr (simulated day)) (m_adr (baseline day))
            /\ jeq (m_revPAR (simulated day)) (m_revPAR (baseline day)))
         (dailyResults r)
  /\ jeq (totalRevPARChange (summary r)) (Some 0)
  /\ roi (summary r) = None.
Proof.
  intros Hpc Hm Hcc H.
  apply runSimulation_Ok_inv in H as (f & Hf & -> & ->).
  pose proof (predictDemand_day_facts _ _ _ _ _ _ Hf) as Hfacts.
  rewrite Forall_forall in Hfacts.
  assert (Hday : forall p, In p (predictions f) ->
             exists o a v,
               simulated (simulateDay scenario p)
               = {| occupancy := Some o; m_adr := Some a;
                    m_revPAR := Some v |}
               /\ o == predictedOccupancy p
               /\ a == predictedADR p
               /\ v == predictedRevPAR p).
  { intros p Hp. destruct (Hfacts p Hp) as [Hb Hrev].
    now apply simulateDay_neutral. }
  split; [| split].
  - apply Forall_forall. intros day Hin.
    apply in_map_iff in Hin as (p & <- & Hp).
    destruct (Hday p Hp) as (o & a & v & -> & Ho & Ha & Hv).
    simpl. tauto.
  - unfold summarize; cbn [totalRevPARChange].
    destruct (fold_jadd_sum (fun p => num (predictedRevPAR p))
                predictedRevPAR (predictions f)
                (fun p _ => ex_intro _ (predictedRevPAR p)
                              (conj eq_refl (Qeq_refl _))) 0)
      as (b & Hb & Hbs).
    destruct (fold_jadd_sum (fun d => m_revPAR (simulated d))
                (fun d => orZero (m_revPAR (simulated d)))
                (map (simulateDay scenario) (predictions f))) with (a := 0)
      as (s & Hs & Hss).
    { intros d Hd. apply in_map_iff in Hd as (p & <- & Hp).
      destruct (Hday p Hp) as (o & a & v & -> & _).
      exists v. split; reflexivity. }
    unfold num in *. rewrite Hb, Hs. simpl.
    rewrite Hss, Hbs, sumQ_map.
    rewrite (sumQ_ext_In _ predictedRevPAR); [ring |].
    intros p Hp. destruct (Hday p Hp) as (o & a & v & -> & _ & _ & Hv).
    exact Hv.
  - unfold summarize; cbn [roi].
    destruct (marketingSpend scenario) as [m |]; [| contradiction].
    simpl in Hm. unfold jpositive.
    assert (Hle : Qle_bool m 0 = true) by (apply Qle_bool_iff; lra).
    now rewrite Hle.
Qed.

Lemma runSimulation_neutral_witness :
  exists r,
    runSimulation 0 sampleDb sampleHotel neutralScenario = Ok r
    /\ List.length (dailyResults r) = 2%nat
    /\ jeq (totalRevPARChange (summary r)) (Some 0)
    /\ roi (summary r) = None.
Proof.
  eexists. split; [vm_compute; reflexivity |].
  split; [reflexivity |].
  apply (runSimulation_neutral 0 sampleDb sampleHotel neutralScenario);
    vm_compute; reflexivity.
Defined.

(** ** Price rises in the simulation *)

(** X16.  A price rise of 3 percent or more (priceChange between 3 and
    1000) while competitor prices do not rise (competitorPriceChange at
    most 0) empties the hotel: every day of a result [runSimulation]
    returns has simulated occupancy 0 and simulated RevPAR 0, whatever the
    marketing spend. *)
Theorem runSimulation_price_rise_empties (utcOffset : Z) (db : Database)
  (hotelId : ObjectId) (scenario : Scenario) (r : SimulationResult)
  (pc m cc : Q) :
  priceChange scenario = Some pc ->
  marketingSpend scenario = Some m ->
  competitorPriceChange scenario = Some cc ->
  3 <= pc -> pc <= 1000 -> cc <= 0 ->
  runSimulation utcOffset db hotelId scenario = Ok r ->
  Forall (fun day => jeq (occupancy (simulated day)) (Some 0)
                     /\ jeq (m_revPAR (simulated day)) (Some 0))
         (dailyResults r).
Proof.
  intros Hpc Hm Hcc Hrise _ Hcomp H.
  apply runSimulation_Ok_inv in H as (f & Hf & -> & _).
  pose proof (predictDemand_day_facts _ _ _ _ _ _ Hf) as Hfacts.
  rewrite Forall_forall in Hfacts.
  apply Forall_forall. intros day Hin.
  apply in_map_iff in Hin as (p & <- & Hp).
  destruct (Hfacts p Hp) as [[Hlo _] _].
  rewrite (simulateDay_occupancy scenario p pc m cc Hpc Hm Hcc). cbv zeta.
  cbn [occupancy m_revPAR jeq].
  destruct (Math_min_spec 0.1 (m / 1000 * 0.02)) as (Hcap & _).
  set (t := 1 + (pc * priceElasticity + Math_min 0.1 (m / 1000 * 0.02)
                 + cc * 0.3)).
  assert (Ht : t <= 0) by (unfold t, priceElasticity; lra).
  assert (Hprod : 0 <= predictedOccupancy p * (0 - t))
    by (apply Qmult_le_0_compat; lra).
  assert (Hocc : Math_min 100 (Math_max 0 (predictedOccupancy p * t)) == 0)
    by (apply clamp_nonpos; lra).
  split; [exact Hocc |].
  rewrite Hocc. field.
Qed.

Lemma runSimulation_price_rise_empties_witness :
  exists r day,
    runSimulation 0 sampleDb sampleHotel priceUpScenario = Ok r
    /\ dailyResults r = [day]
    /\ jeq (occupancy (simulated day)) (Some 0)
    /\ jeq (m_revPAR (simulated day)) (Some 0).
Proof.
  eexists. eexists.
  pose proof (runSimulation_price_rise_empties 0 sampleDb sampleHotel
                priceUpScenario _ 10 0 0 eq_refl eq_refl eq_refl
                ltac:(discriminate) ltac:(discriminate) ltac:(discriminate)
                ltac:(vm_compute; reflexivity)) as H.
  apply Forall_inv in H.
  split; [reflexivity |]. split; [reflexivity | exact H].
Defined.

(** ** Date ranges that simulate nothing *)

Lemma simulatedDays_short_range (scenario : Scenario) :
  (endDate scenario - startDate scenario < 43200000)%Z ->
  (simulatedDays scenario <= 0)%Z.
Proof.
  intros Hshort. unfold simulatedDays, Math_round.
  set (x := inject_Z (endDate scenario - startDate scenario)).
  assert (Hx : x < 43200000)
    by (unfold x; change 43200000 with (inject_Z 43200000);
        now rewrite <- Zlt_Qlt).
  assert (Hdiv : x / inject_Z msPerDay < 1 # 2).
  { apply Qlt_shift_div_r; [reflexivity |].
    change (inject_Z msPerDay) with 86400000. lra. }
  pose proof (Qfloor_le (x / inject_Z msPerDay + (1 # 2))) as Hfl.
  assert (Hlt : inject_Z (Qfloor (x / inject_Z msPerDay + (1 # 2)))
                < inject_Z 1) by (change (inject_Z 1) with 1; lra).
  rewrite <- Zlt_Qlt in Hlt. lia.
Qed.

Lemma predictDemand_nonpositive_horizon (utcOffset : Z) (db : Database)
  (hotelId : ObjectId) (targetDate : Date) (daysAhead : Z) :
  (daysAhead <= 0)%Z ->
  predictDemand utcOffset db hotelId targetDate daysAhead
  = Ok {| df_hotelId := hotelId;
          df_targetDate := targetDate;
          df_daysAhead := daysAhead;
          predictions := [] |}.
Proof.
  intros Hdays. unfold predictDemand, predictDemandWith.
  replace (Z.to_nat daysAhead) with 0%nat by lia.
  reflexivity.
Qed.

(** X17.  A scenario whose endDate is less than twelve hours after its
    startDate (in particular one that ends before it starts) simulates no
    day: every result [runSimulation] returns for it has no daily entries,
    both RevPAR totals 0 and percentRevPARChange [NaN]; roi is then 0 for a
    positive marketingSpend and null otherwise. *)
Theorem runSimulation_short_range (utcOffset : Z) (db : Database)
  (hotelId : ObjectId) (scenario : Scenario) (r : SimulationResult) :
  (endDate scenario - startDate scenario < 43200000)%Z ->
  runSimulation utcOffset db hotelId scenario = Ok r ->
  dailyResults r = []
  /\ baselineTotalRevPAR (summary r) = Some 0
  /\ simulatedTotalRevPAR (summary r) = Some 0
  /\ percentRevPARChange (summary r) = NaN
  /\ (jpositive (marketingSpend scenario) = true ->
      exists q, roi (summary r) = Some (Some q) /\ q == 0)
  /\ (jpositive (marketingSpend scenario) = false ->
      roi (summary r) = None).
Proof.
  intros Hshort. apply simulatedDays_short_range in Hshort.
  unfold runSimulation.
  rewrite (predictDemand_nonpositive_horizon _ _ _ _ _ Hshort).
  cbn [bind predictions map]. intros H. injection H as <-.
  cbn [dailyResults summary]. unfold summarize.
  cbn [fold_left baselineTotalRevPAR simulatedTotalRevPAR
       percentRevPARChange roi].
  split; [reflexivity |]. split; [reflexivity |]. split; [reflexivity |].
  split; [reflexivity |]. split; intros Hpos; rewrite Hpos.
  - destruct (marketingSpend scenario) as [m |]; [| discriminate Hpos].
    apply jpositive_Some in Hpos. simpl.
    rewrite (Qeq_bool_pos m Hpos).
    eexists. split; [reflexivity |]. field. lra.
  - reflexivity.
Qed.

Lemma runSimulation_short_range_witness :
  exists r,
    runSimulation 0 sampleDb sampleHotel backwardScenario = Ok r
    /\ dailyResults r = []
    /\ percentRevPARChange (summary r) = NaN.
Proof.
  eexists. split; [vm_compute; reflexivity |].
  pose proof (runSimulation_short_range 0 sampleDb sampleHotel
                backwardScenario _ ltac:(vm_compute; reflexivity)
                ltac:(vm_compute; reflexivity))
    as (Hd & _ & _ & Hp & _).
  split; [exact Hd | exact Hp].
Defined.

(** * Properties of the GuestDNA model *)

(** ** Sentiment analysis *)

Lemma firstn_subset {A : Type} (n : nat) (l : list A) (x : A) :
  In x (firstn n l) -> In x l.
Proof.
  revert l. induction n as [| n IH]; intros [| y l]; simpl; try tauto.
  intros [-> | H]; [now left | right; now apply IH].
Qed.

Lemma scoredInteractions_In (store : GuestStore) (guestId : ObjectId)
  (i : AIInteraction) :
  In i (scoredInteractions store guestId) ->
  In i (interactionCollection store) /\ scoredFor guestId i = true.
Proof.
  unfold scoredInteractions. intros H.
  apply firstn_subset in H. apply sortByDate_In in H.
  now apply filter_In in H.
Qed.

Lemma scoredInteractions_length (store : GuestStore) (guestId : ObjectId) :
  (List.length (scoredInteractions store guestId) <= 100)%nat.
Proof. unfold scoredInteractions. apply firstn_le_length. Qed.

Lemma length_eqb_0 {A : Type} (l : list A) :
  (List.length l =? 0)%nat = false -> l <> [].
Proof. destruct l; [discriminate | discriminate]. Qed.

(** X18.  [analyzeGuestSentiment] never counts more than 100 interactions,
    and when every stored score lies within the schema's bounds -1 .. 1 (a
    missing or null score counting as 0), so does the overall sentiment it
    returns. *)
Theorem analyzeGuestSentiment_bounds (store : GuestStore)
  (guestId : ObjectId) (now : Date) (a : SentimentAnalysis)
  (store' : GuestStore) :
  (forall i, In i (interactionCollection store) ->
             -1 <= fieldOrZero (sentimentScore i)
             /\ fieldOrZero (sentimentScore i) <= 1) ->
  analyzeGuestSentiment store guestId now = Ok (a, store') ->
  (interactionCount a <= 100)%nat
  /\ -1 <= overallSentiment a /\ overallSentiment a <= 1.
Proof.
  intros Hscores. unfold analyzeGuestSentiment.
  destruct (List.length (scoredInteractions store guestId) =? 0)%nat eqn:E;
    intros H; injection H as <- _; simpl.
  - split; [lia | split; discriminate].
  - split; [apply scoredInteractions_length |].
    apply average_bounds; [now apply length_eqb_0 |].
    intros i Hi. apply Hscores.
    now apply scoredInteractions_In in Hi.
Qed.

(** ** The concierge *)

Section ConciergeFacts.

Variable toLowerCase : string -> string.

Lemma matchIntent_cases (query : string) :
  matchIntent toLowerCase query
  = ("room_service"%string, roomServiceResponse, 0.2)
  \/ matchIntent toLowerCase query
     = ("housekeeping"%string, housekeepingResponse, 0.1)
  \/ matchIntent toLowerCase query
     = ("concierge"%string, conciergeResponse, 0.3)
  \/ matchIntent toLowerCase query
     = ("complaint"%string, complaintResponse, -0.5)
  \/ matchIntent toLowerCase query = ("unknown"%string, unknownResponse, 0).
Proof.
  unfold matchIntent.
  destruct (_ || _ || _); [now left |].
  destruct (_ || _ || _); [now right; left |].
  destruct (_ || _ || _); [now right; right; left |].
  destruct (_ || _ || _ || _);
    [now right; right; right; left | now right; right; right; right].
Qed.

Lemma processNaturalLanguageQuery_Ok (store : GuestStore)
  (guestId : ObjectId) (query : string) (hotelId : ObjectId)
  (clock : Clock) :
  processNaturalLanguageQuery toLowerCase store guestId query hotelId clock
  = Ok ({| response := snd (fst (matchIntent toLowerCase query));
           reply_intent := fst (fst (matchIntent toLowerCase query));
           reply_sentimentScore := snd (matchIntent toLowerCase query);
           reply_timestamp := replyNow clock |},
        {| guestCollection := guestCollection store;
           interactionCollection :=
             interactionCollection store
             ++ [ {| ai_hotelId := hotelId;
                     ai_guestId := Some guestId;
                     sessionId :=
                       "session_"
                       ++ NilZero.string_of_int
                            (Z.to_int (sessionNow clock));
                     channel := "chat";
                     timestamp := interactionNow clock;
                     userInput := query;
                     aiResponse := snd (fst (matchIntent toLowerCase query));
                     intent := fst (fst (matchIntent toLowerCase query));
                     sentimentScore :=
                       Number (snd (matchIntent toLowerCase query)) |} ] |}).
Proof.
  unfold processNaturalLanguageQuery.
  destruct (matchIntent toLowerCase query) as [[i r] s]. reflexivity.
Qed.

End ConciergeFacts.

Lemma analyzeGuestSentiment_bounds_witness :
  exists a store',
    analyzeGuestSentiment complaintStore sampleGuestId saturday
    = Ok (a, store')
    /\ (interactionCount a <= 100)%nat
    /\ -1 <= overallSentiment a /\ overallSentiment a <= 1.
Proof.
  eexists. eexists. split; [vm_compute; reflexivity |].
  eapply (analyzeGuestSentiment_bounds complaintStore sampleGuestId saturday).
  - intros i Hi. vm_compute in Hi. destruct Hi as [<- | []].
    split; vm_compute; discriminate.
  - vm_compute; reflexivity.
Defined.

(** ** The trend of a short history *)

Lemma trend_against_zero (x : Q) :
  (if negb (Qle_bool x (0 / 1 + 0.1)) then "improving"%string
   else if negb (Qle_bool (0 / 1 - 0.1) x) then "declining"%string
        else "neutral"%string)
  = trendOf x.
Proof.
  unfold trendOf.
  assert (Hup : 0 / 1 + 0.1 == 0.1) by reflexivity.
  assert (Hdown : 0 / 1 - 0.1 == -0.1) by reflexivity.
  destruct (Qle_bool x (0 / 1 + 0.1)) eqn:E1; simpl.
  - apply Qle_bool_iff in E1.
    destruct (Qlt_le_dec 0.1 x); [lra |].
    destruct (Qle_bool (0 / 1 - 0.1) x) eqn:E2; simpl.
    + apply Qle_bool_iff in E2.
      destruct (Qlt_le_dec x (-0.1)); [lra | reflexivity].
    + apply Qle_bool_false in E2.
      destruct (Qlt_le_dec x (-0.1)); [reflexivity | lra].
  - apply Qle_bool_false in E1.
    destruct (Qlt_le_dec 0.1 x); [reflexivity | lra].
Qed.

Lemma analyzeGuestSentiment_short (store : GuestStore) (guestId : ObjectId)
  (now : Date) :
  let l := scoredInteractions store guestId in
  l <> [] -> (List.length l <= 10)%nat ->
  analyzeGuestSentiment store guestId now
  = Ok ({| overallSentiment := sumSentiment l / lengthQ l;
           sentimentTrend := trendOf (sumSentiment l / lengthQ l);
           interactionCount := List.length l |},
        setGuestSentiment store guestId (sumSentiment l / lengthQ l) now).
Proof.
  intros l Hne Hlen. unfold analyzeGuestSentiment. fold l.
  destruct (List.length l =? 0)%nat eqn:E.
  - apply Nat.eqb_eq in E. destruct l; [congruence | discriminate E].
  - rewrite (firstn_all2 l Hlen), (skipn_all2 l Hlen).
    cbn [firstn].
    assert (HL : lengthOrOne l = lengthQ l)
      by (unfold lengthOrOne; now rewrite E).
    rewrite !HL.
    change (sumSentiment [] / lengthOrOne (@nil AIInteraction))
      with (0 / 1).
    now rewrite trend_against_zero.
Qed.

(** X19.  While a guest has between one and ten scored interactions, the
    trend [analyzeGuestSentiment] reports is decided by the overall
    sentiment alone: improving above 0.1, declining below -0.1, neutral in
    between (both ends included). *)
Theorem analyzeGuestSentiment_short_history (store : GuestStore)
  (guestId : ObjectId) (now : Date) (a : SentimentAnalysis)
  (store' : GuestStore) :
  analyzeGuestSentiment store guestId now = Ok (a, store') ->
  (1 <= interactionCount a <= 10)%nat ->
  sentimentTrend a = trendOf (overallSentiment a).
Proof.
  intros H Hcount.
  destruct (scoredInteractions store guestId) as [| i l] eqn:E.
  - unfold analyzeGuestSentiment in H. rewrite E in H.
    injection H as <- _. simpl in Hcount. lia.
  - assert (Hlen : (List.length (scoredInteractions store guestId) <= 10)%nat).
    { unfold analyzeGuestSentiment in H.
      destruct (List.length (scoredInteractions store guestId) =? 0)%nat;
        injection H as <- _; simpl in Hcount; lia. }
    rewrite analyzeGuestSentiment_short in H;
      [| rewrite E; discriminate | exact Hlen].
    injection H as <- _. reflexivity.
Qed.

Lemma analyzeGuestSentiment_short_history_witness :
  exists a store',
    analyzeGuestSentiment complaintStore sampleGuestId saturday
    = Ok (a, store')
    /\ interactionCount a = 1%nat
    /\ sentimentTrend a = trendOf (overallSentiment a)
    /\ sentimentTrend a = "declining"%string.
Proof.
  eexists. eexists. split; [vm_compute; reflexivity |].
  split; [reflexivity |]. split.
  - apply (analyzeGuestSentiment_short_history complaintStore sampleGuestId
             saturday _ _ ltac:(vm_compute; reflexivity)).
    simpl. lia.
  - reflexivity.
Defined.

(** ** What the analysis writes *)

(** X20.  [analyzeGuestSentiment] never touches the stored interactions nor
    any other guest: with no scored interaction it returns 0 / neutral / 0
    and leaves the store as it is; otherwise the only change is that the
    guest's own document gets sentimentScore = the overall sentiment and
    updatedAt = the current time. *)
Theorem analyzeGuestSentiment_effects (store : GuestStore)
  (guestId : ObjectId) (now : Date) (a : SentimentAnalysis)
  (store' : GuestStore) :
  analyzeGuestSentiment store guestId now = Ok (a, store') ->
  interactionCollection store' = interactionCollection store
  /\ (interactionCount a = 0%nat ->
      store' = store /\ overallSentiment a = 0
      /\ sentimentTrend a = "neutral"%string)
  /\ Forall2 (fun g g' =>
                guest_id g' = guest_id g
                /\ stayHistory g' = stayHistory g
                /\ preferences g' = preferences g
                /\ spendingProfile g' = spendingProfile g
                /\ behaviorTags g' = behaviorTags g
                /\ (guest_id g <> guestId -> g' = g)
                /\ (guest_id g = guestId -> interactionCount a <> 0%nat ->
                    guest_sentimentScore g' = Number (overallSentiment a)
                    /\ guest_updatedAt g' = now))
             (guestCollection store) (guestCollection store').
Proof.
  unfold analyzeGuestSentiment.
  destruct (List.length (scoredInteractions store guestId) =? 0)%nat eqn:E;
    intros H; injection H as <- <-.
  - split; [reflexivity |]. split; [intros _; repeat split |].
    cbn [interactionCount]. generalize (guestCollection store) as l.
    induction l as [| g l IH]; constructor; [| exact IH].
    do 5 (split; [reflexivity |]).
    split; [intros _; reflexivity | intros _ Hc; now contradiction Hc].
  - split; [reflexivity |]. split.
    + cbn [interactionCount]. intros Hc. rewrite Hc in E. discriminate E.
    + cbn [setGuestSentiment guestCollection overallSentiment
           interactionCount].
      apply Forall2_map_r_intro. intros g _.
      destruct (String.eqb (guest_id g) guestId) eqn:Eg.
      * apply String.eqb_eq in Eg. cbn.
        do 5 (split; [reflexivity |]).
        split; [intros Hne; contradiction | intros _ _; split; reflexivity].
      * apply String.eqb_neq in Eg.
        do 5 (split; [reflexivity |]).
        split; [intros _; reflexivity | intros Hid; contradiction].
Qed.

Lemma analyzeGuestSentiment_effects_witness :
  exists a store',
    analyzeGuestSentiment complaintStore sampleGuestId saturday
    = Ok (a, store')
    /\ interactionCollection store' = interactionCollection complaintStore
    /\ map guest_sentimentScore (guestCollection store') = [Number (-0.5)].
Proof.
  eexists. eexists. split; [vm_compute; reflexivity |].
  split.
  - apply (analyzeGuestSentiment_effects complaintStore sampleGuestId
             saturday _ _ ltac:(vm_compute; reflexivity)).
  - reflexivity.
Defined.

(** ** Replies of the concierge *)

Section ConciergeReplies.

Variable toLowerCase : string -> string.

(** X21.  Each call of [processNaturalLanguageQuery] that returns has
    stored exactly one new interaction, after the existing ones and without
    touching the guests: it is for that guest and hotel, on channel chat,
    stamped with the interaction time, and carries the query together with
    the intent, response and score of the reply.  The score lies within the
    schema's bounds -1 .. 1 and is negative exactly for a complaint. *)
Theorem processNaturalLanguageQuery_records_reply (store : GuestStore)
  (guestId : ObjectId) (query : string) (hotelId : ObjectId)
  (clock : Clock) (reply : Reply) (store' : GuestStore) :
  processNaturalLanguageQuery toLowerCase store guestId query hotelId clock
  = Ok (reply, store') ->
  exists saved,
    store' = {| guestCollection := guestCollection store;
                interactionCollection :=
                  interactionCollection store ++ [saved] |}
    /\ ai_guestId saved = Some guestId
    /\ ai_hotelId saved = hotelId
    /\ channel saved = "chat"%string
    /\ timestamp saved = interactionNow clock
    /\ userInput saved = query
    /\ intent saved = reply_intent reply
    /\ aiResponse saved = response reply
    /\ sentimentScore saved = Number (reply_sentimentScore reply)
    /\ -1 <= reply_sentimentScore reply
    /\ reply_sentimentScore reply <= 1
    /\ (reply_sentimentScore reply < 0
        <-> reply_intent reply = "complaint"%string).
Proof.
  rewrite processNaturalLanguageQuery_Ok.
  intros H. injection H as <- <-.
  eexists. split; [reflexivity |].
  cbn [ai_guestId ai_hotelId channel timestamp userInput intent aiResponse
       sentimentScore reply_intent response reply_sentimentScore].
  do 8 (split; [reflexivity |]).
  destruct (matchIntent_cases toLowerCase query)
    as [H | [H | [H | [H | H]]]]; rewrite H; cbn [fst snd];
    (split; [discriminate |]); (split; [discriminate |]);
    split; intros Hs; try reflexivity; try discriminate Hs.
Qed.

Lemma matchIntent_unknown_words (query : string) :
  fst (fst (matchIntent toLowerCase query)) = "unknown"%string ->
  forallb (fun keyword => negb (includes (toLowerCase query) keyword))
          conciergeKeywords = true.
Proof.
  unfold matchIntent, conciergeKeywords. cbn [forallb].
  repeat match goal with
         | |- context [includes ?a ?b] =>
             destruct (includes a b); cbn [orb negb andb fst]
         end;
    intros H; try reflexivity; discriminate H.
Qed.

(** X22.  The concierge answers with the intent "unknown" (and its
    rephrase request, score 0) exactly when the lower-cased query contains
    none of the thirteen keywords. *)
Theorem matchIntent_unknown_iff (query : string) :
  (fst (fst (matchIntent toLowerCase query)) = "unknown"%string
   <-> forallb (fun keyword => negb (includes (toLowerCase query) keyword))
               conciergeKeywords = true)
  /\ (fst (fst (matchIntent toLowerCase query)) = "unknown"%string ->
      matchIntent toLowerCase query = ("unknown"%string, unknownResponse, 0)).
Proof.
  split.
  - unfold matchIntent, conciergeKeywords. cbn [forallb].
    repeat match goal with
           | |- context [includes ?a ?b] =>
               destruct (includes a b); cbn [orb negb andb fst]
           end;
      split; intros H; try reflexivity; discriminate H.
  - intros H.
    destruct (matchIntent_cases toLowerCase query)
      as [E | [E | [E | [E | E]]]]; rewrite E in H |- *;
      try reflexivity; discriminate H.
Qed.

End ConciergeReplies.

(** ** Keywords in any letter case *)

Lemma asciiLower_app (a b : string) :
  asciiLower (a ++ b) = (asciiLower a ++ asciiLower b)%string.
Proof.
  induction a as [| c a IH]; simpl; [reflexivity | now rewrite IH].
Qed.

Lemma prefix_app (k b : string) : String.prefix k (k ++ b) = true.
Proof.
  induction k as [| c k IH]; simpl; [now destruct b |].
  destruct (ascii_dec c c) as [_ | Hne]; [exact IH | congruence].
Qed.

Lemma includes_prefix (s sub : string) :
  String.prefix sub s = true -> includes s sub = true.
Proof. destruct s; simpl; intros ->; reflexivity. Qed.

Lemma includes_app (a k b : string) : includes (a ++ k ++ b) k = true.
Proof.
  induction a as [| c a IH].
  - change ("" ++ k ++ b)%string with (k ++ b)%string.
    apply includes_prefix. exact (prefix_app k b).
  - simpl. rewrite IH. apply orb_true_r.
Qed.

(** X23.  On ASCII text the concierge matches keywords in any letter case
    and anywhere in the query: a query containing a word that lower-cases to
    one of the thirteen keywords never gets the intent "unknown", and one
    containing "room service", "food" or "hungry" in any letter case gets
    "room_service" whatever else it says. *)
Theorem matchIntent_any_case (before word after : string) :
  (In (asciiLower word) conciergeKeywords ->
   fst (fst (matchIntent asciiLower (before ++ word ++ after)))
   <> "unknown"%string)
  /\ (In (asciiLower word) ["room service"; "food"; "hungry"]%string ->
      matchIntent asciiLower (before ++ word ++ after)
      = ("room_service"%string, roomServiceResponse, 0.2)).
Proof.
  assert (Hinc : includes (asciiLower (before ++ word ++ after))
                          (asciiLower word) = true)
    by (rewrite !asciiLower_app; apply includes_app).
  split.
  - intros Hin Hunknown.
    apply (matchIntent_unknown_words asciiLower) in Hunknown.
    rewrite forallb_forall in Hunknown.
    specialize (Hunknown _ Hin). rewrite Hinc in Hunknown.
    discriminate Hunknown.
  - intros Hin. unfold matchIntent.
    destruct Hin as [Hk | [Hk | [Hk | []]]]; rewrite <- Hk in Hinc;
      rewrite Hinc; rewrite ?orb_true_r; reflexivity.
Qed.

Lemma matchIntent_any_case_witness :
  fst (fst (matchIntent asciiLower "Is the TOWEL service free?"))
  <> "unknown"%string
  /\ matchIntent asciiLower "I'm HUNGRY and the tv has a problem"
     = ("room_service"%string, roomServiceResponse, 0.2).
Proof.
  split.
  - apply (matchIntent_any_case "Is the " "TOWEL" " service free?").
    vm_compute. tauto.
  - apply (matchIntent_any_case "I'm " "HUNGRY" " and the tv has a problem").
    vm_compute. tauto.
Defined.

(** ** A first query and the sentiment it leaves *)

Lemma scoredInteractions_nil_inv (store : GuestStore) (guestId : ObjectId) :
  scoredInteractions store guestId = [] ->
  filter (scoredFor guestId) (interactionCollection store) = [].
Proof.
  unfold scoredInteractions. intros H.
  apply (sortByDate_nil_inv (fun i => (- timestamp i)%Z)).
  destruct (sortByDate _ _) as [| i l]; [reflexivity | discriminate H].
Qed.

Lemma scoredInteractions_after_first (store : GuestStore)
  (guestId : ObjectId) (saved : AIInteraction) :
  scoredInteractions store guestId = [] ->
  scoredFor guestId saved = true ->
  scoredInteractions
    {| guestCollection := guestCollection store;
       interactionCollection := interactionCollection store ++ [saved] |}
    guestId
  = [saved].
Proof.
  intros Hnone Hsaved. apply scoredInteractions_nil_inv in Hnone.
  unfold scoredInteractions. cbn [interactionCollection].
  rewrite filter_app, Hnone. cbn [filter app]. rewrite Hsaved.
  reflexivity.
Qed.

Section FirstQuery.

Variable toLowerCase : string -> string.

(** X24.  For a guest with no scored interaction so far, one query to the
    concierge followed by [analyzeGuestSentiment] gives an interaction count
    of 1 and an overall sentiment equal to the score of the reply, with the
    trend improving after a room-service or concierge request, declining
    after a complaint and neutral after a housekeeping request (whose score
    0.1 does not exceed the 0.1 margin) or an unknown one. *)
Theorem first_query_sentiment (store : GuestStore) (guestId : ObjectId)
  (query : string) (hotelId : ObjectId) (clock : Clock) (now : Date)
  (reply : Reply) (store1 : GuestStore) :
  scoredInteractions store guestId = [] ->
  processNaturalLanguageQuery toLowerCase store guestId query hotelId clock
  = Ok (reply, store1) ->
  exists a store2,
    analyzeGuestSentiment store1 guestId now = Ok (a, store2)
    /\ interactionCount a = 1%nat
    /\ overallSentiment a == reply_sentimentScore reply
    /\ sentimentTrend a
       = (if String.eqb (reply_intent reply) "room_service"
             || String.eqb (reply_intent reply) "concierge"
          then "improving"
          else if String.eqb (reply_intent reply) "complaint"
               then "declining"
               else "neutral")%string.
Proof.
  intros Hnone H. rewrite processNaturalLanguageQuery_Ok in H.
  injection H as <- <-.
  match goal with
  | |- context [interactionCollection store ++ [?i]] => set (saved := i)
  end.
  assert (Hsaved : scoredFor guestId saved = true)
    by (unfold scoredFor, saved; cbn; now rewrite String.eqb_refl).
  pose proof (scoredInteractions_after_first store guestId saved Hnone Hsaved)
    as Hone.
  rewrite analyzeGuestSentiment_short; rewrite Hone;
    [| discriminate | simpl; lia].
  eexists. eexists. split; [reflexivity |].
  cbn [interactionCount overallSentiment sentimentTrend reply_intent
       reply_sentimentScore].
  split; [reflexivity |].
  unfold sumSentiment, saved; cbn [fold_left sentimentScore fieldOrZero].
  change (lengthQ [saved]) with 1. fold saved.
  destruct (matchIntent_cases toLowerCase query)
    as [E | [E | [E | [E | E]]]]; rewrite E; cbn [fst snd];
    (split; [vm_compute; reflexivity | vm_compute; reflexivity]).
Qed.

End FirstQuery.

Lemma first_query_sentiment_witness :
  exists reply store1 a store2,
    processNaturalLanguageQuery asciiLower sampleStore sampleGuestId
      "Could I get a clean towel?" sampleHotel sampleClock
    = Ok (reply, store1)
    /\ reply_intent reply = "housekeeping"%string
    /\ analyzeGuestSentiment store1 sampleGuestId (saturday + 60000)%Z
       = Ok (a, store2)
    /\ interactionCount a = 1%nat
    /\ sentimentTrend a = "neutral"%string.
Proof.
  eexists. eexists.
  destruct (first_query_sentiment asciiLower sampleStore sampleGuestId
              "Could I get a clean towel?" sampleHotel sampleClock
              (saturday + 60000)%Z _ _ eq_refl
              ltac:(vm_compute; reflexivity))
    as (a & store2 & Ha & Hcount & _ & Htrend).
  exists a, store2.
  split; [reflexivity |]. split; [reflexivity |].
  split; [exact Ha |]. split; [exact Hcount | exact Htrend].
Defined.

(** ** The preferred room type *)

Lemma countOf_bumpCount (key t : string) (counts : list (string * nat)) :
  countOf (bumpCount key counts) t
  = if String.eqb key t then S (countOf counts t) else countOf counts t.
Proof.
  induction counts as [| [k n] rest IH]; simpl.
  - destruct (String.eqb key t); reflexivity.
  - destruct (String.eqb k key) eqn:Ek; simpl.
    + apply String.eqb_eq in Ek. subst k.
      destruct (String.eqb key t); reflexivity.
    + destruct (String.eqb k t) eqn:Et; [| exact IH].
      apply String.eqb_eq in Et. subst t. now rewrite String.eqb_sym, Ek.
Qed.

Lemma bumpCount_keys (key : string) (counts : list (string * nat))
  (P : string * nat -> Prop) :
  (forall n, P (key, S n)) ->
  Forall P counts -> Forall P (bumpCount key counts).
Proof.
  intros Hkey. induction 1 as [| [k n] rest Hx Hrest IH]; simpl.
  - constructor; [apply Hkey | constructor].
  - destruct (String.eqb k key) eqn:Ek.
    + apply String.eqb_eq in Ek. subst k.
      constructor; [apply Hkey | exact Hrest].
    + constructor; [exact Hx | exact IH].
Qed.

Lemma countRoomTypes_fold (stays : list Stay) :
  forall counts t,
    t <> ""%string ->
    countOf (fold_left roomTypeStep stays counts) t
    = (countOf counts t + staysOfType stays t)%nat.
Proof.
  unfold staysOfType.
  induction stays as [| stay stays IH]; intros counts t Ht; simpl;
    [lia |].
  rewrite IH by exact Ht. unfold roomTypeStep.
  destruct (stay_roomType stay) as [t' |]; [| reflexivity].
  destruct (String.eqb t' "") eqn:E0.
  - apply String.eqb_eq in E0. subst t'.
    destruct (String.eqb "" t) eqn:Et; [| reflexivity].
    apply String.eqb_eq in Et. congruence.
  - rewrite countOf_bumpCount.
    destruct (String.eqb t' t); simpl; lia.
Qed.

Lemma countRoomTypes_entries (stays : list Stay) :
  forall counts,
    Forall (fun e => fst e <> ""%string /\ (1 <= snd e)%nat) counts ->
    Forall (fun e => fst e <> ""%string /\ (1 <= snd e)%nat)
           (fold_left roomTypeStep stays counts).
Proof.
  induction stays as [| stay stays IH]; intros counts H; simpl;
    [exact H |].
  apply IH. unfold roomTypeStep.
  destruct (stay_roomType stay) as [t |]; [| exact H].
  destruct (String.eqb t "") eqn:E0; [exact H |].
  apply String.eqb_neq in E0.
  apply bumpCount_keys; [| exact H].
  intros n. simpl. split; [exact E0 | lia].
Qed.

Lemma countOf_key (counts : list (string * nat)) (k : string) :
  Forall (fun e => fst e <> ""%string /\ (1 <= snd e)%nat) counts ->
  In k (map fst counts) ->
  k <> ""%string /\ (1 <= countOf counts k)%nat.
Proof.
  induction 1 as [| [k' n] rest [Hk Hn] _ IH]; simpl; [contradiction |].
  intros [<- | Hin].
  - rewrite String.eqb_refl. split; assumption.
  - destruct (String.eqb k' k) eqn:E; [| now apply IH].
    apply String.eqb_eq in E. subst k'. split; assumption.
Qed.

Lemma countOf_not_key (counts : list (string * nat)) (k : string) :
  ~ In k (map fst counts) -> countOf counts k = 0%nat.
Proof.
  induction counts as [| [k' n] rest IH]; simpl; [reflexivity |].
  intros Hnot. destruct (String.eqb k' k) eqn:E.
  - apply String.eqb_eq in E. tauto.
  - apply IH. tauto.
Qed.

(** The [reduce] of [preferredRoomType] ends on a key of maximal count. *)
Lemma reduce_max (count : string -> nat) (keys : list string) :
  forall first,
    let best := fold_left (fun a b => if (count b <? count a)%nat
                                      then a else b) keys first in
    (best = first \/ In best keys)
    /\ (count first <= count best)%nat
    /\ forall k, In k keys -> (count k <= count best)%nat.
Proof.
  induction keys as [| b keys IH]; intros first; simpl.
  - split; [now left |]. split; [lia | contradiction].
  - destruct (count b <? count first)%nat eqn:E.
    + apply Nat.ltb_lt in E.
      destruct (IH first) as (Hin & Hfirst & Hall).
      split; [tauto |]. split; [exact Hfirst |].
      intros k [<- | Hk]; [lia | now apply Hall].
    + apply Nat.ltb_ge in E.
      destruct (IH b) as (Hin & Hb & Hall).
      split; [destruct Hin as [Hin | Hin];
              [right; left; now symmetry | right; right; exact Hin] |].
      split; [lia |].
      intros k [<- | Hk]; [exact Hb | now apply Hall].
Qed.

Lemma preferredRoomType_spec (stays : list Stay) :
  match preferredRoomType (countRoomTypes stays) with
  | Some best =>
      best <> ""%string
      /\ (1 <= staysOfType stays best)%nat
      /\ forall t, t <> ""%string ->
                   (staysOfType stays t <= staysOfType stays best)%nat
  | None => forall t, t <> ""%string -> staysOfType stays t = 0%nat
  end.
Proof.
  assert (Hcount : forall t, t <> ""%string ->
             countOf (countRoomTypes stays) t = staysOfType stays t).
  { intros t Ht. unfold countRoomTypes.
    change (fold_left _ stays []) with (fold_left roomTypeStep stays []).
    now rewrite countRoomTypes_fold. }
  assert (Hentries :
            Forall (fun e => fst e <> ""%string /\ (1 <= snd e)%nat)
                   (countRoomTypes stays)).
  { unfold countRoomTypes.
    change (fold_left _ stays []) with (fold_left roomTypeStep stays []).
    apply countRoomTypes_entries. constructor. }
  unfold preferredRoomType.
  destruct (map fst (countRoomTypes stays)) as [| first keys] eqn:Ekeys.
  - intros t Ht. rewrite <- (Hcount t Ht).
    apply countOf_not_key. rewrite Ekeys. tauto.
  - destruct (reduce_max (countOf (countRoomTypes stays)) (first :: keys)
                first) as (Hin & _ & Hall).
    set (best := fold_left _ (first :: keys) first) in *.
    assert (Hkey : In best (map fst (countRoomTypes stays))).
    { rewrite Ekeys. destruct Hin as [-> | Hin]; [now left | exact Hin]. }
    destruct (countOf_key _ _ Hentries Hkey) as [Hne Hpos].
    split; [exact Hne |]. split; [now rewrite <- (Hcount best Hne) |].
    intros t Ht. rewrite <- (Hcount t Ht), <- (Hcount best Hne).
    destruct (in_dec string_dec t (first :: keys)) as [Hk | Hk].
    + now apply Hall.
    + rewrite countOf_not_key; [lia | now rewrite Ekeys].
Qed.

(** X25.  The room preference [generateRecommendations] derives from a
    guest's stay history is a most frequent room type of that history:
    there is at most one such recommendation; when present it names a
    non-empty room type that occurs in the history, no other non-empty room
    type occurs more often, and its confidence is 0.8; when absent, no stay
    of the history has a non-empty room type. *)
Theorem generateRecommendations_preferred_room (store : GuestStore)
  (guestId : ObjectId) (now : Date) (r : GuestRecommendations) :
  generateRecommendations store guestId now = Ok r ->
  exists guest,
    Guest_findById store guestId = Some guest
    /\ let stays := match stayHistory guest with
                    | Some stays => stays
                    | None => []
                    end in
       match roomPreferences (gr_recommendations r) with
       | [] => forall t, t <> ""%string -> staysOfType stays t = 0%nat
       | [item] =>
           rec_type item = "room_type"%string
           /\ confidence item = 0.8
           /\ rec_value item <> ""%string
           /\ (1 <= staysOfType stays (rec_value item))%nat
           /\ forall t, t <> ""%string ->
                (staysOfType stays t
                 <= staysOfType stays (rec_value item))%nat
       | _ => False
       end.
Proof.
  unfold generateRecommendations.
  destruct (Guest_findById store guestId) as [guest |]; [| discriminate].
  intros H. injection H as <-. exists guest. split; [reflexivity |].
  cbn [gr_recommendations roomPreferences].
  destruct (stayHistory guest) as [stays |]; [| intros t _; reflexivity].
  destruct stays as [| stay stays]; [intros t _; reflexivity |].
  change (0 <? List.length (stay :: stays))%nat with true. cbv iota.
  pose proof (preferredRoomType_spec (stay :: stays)) as Hspec.
  destruct (preferredRoomType (countRoomTypes (stay :: stays))) as [best |].
  - cbn [rec_type confidence rec_value].
    split; [reflexivity |]. split; [reflexivity | exact Hspec].
  - exact Hspec.
Qed.

Lemma generateRecommendations_preferred_room_witness :
  exists r item,
    generateRecommendations sampleStore sampleGuestId saturday = Ok r
    /\ roomPreferences (gr_recommendations r) = [item]
    /\ rec_value item = "Deluxe"%string
    /\ (staysOfType [ {| stay_roomType := Some "Deluxe"%string |};
                      {| stay_roomType := Some "Suite"%string |};
                      {| stay_roomType := None |};
                      {| stay_roomType := Some "Deluxe"%string |} ]
                    "Suite"
        <= 2)%nat.
Proof.
  eexists. eexists.
  destruct (generateRecommendations_preferred_room sampleStore sampleGuestId
              saturday _ ltac:(vm_compute; reflexivity))
    as (guest & Hguest & Hpref).
  vm_compute in Hguest. injection Hguest as <-.
  cbn in Hpref. destruct Hpref as (_ & _ & _ & _ & Hmax).
  split; [reflexivity |]. split; [reflexivity |]. split; [reflexivity |].
  specialize (Hmax "Suite"%string ltac:(discriminate)).
  vm_compute in Hmax |- *. exact Hmax.
Defined.

Lemma matchIntent_unknown_iff_witness :
  forallb (fun keyword =>
             negb (includes (asciiLower "Good morning!") keyword))
          conciergeKeywords = true
  /\ matchIntent asciiLower "Good morning!"
     = ("unknown"%string, unknownResponse, 0).
Proof.
  split; [reflexivity |].
  apply (matchIntent_unknown_iff asciiLower "Good morning!").
  apply (matchIntent_unknown_iff asciiLower "Good morning!").
  reflexivity.
Defined.

Lemma processNaturalLanguageQuery_records_reply_witness :
  exists reply store' saved,
    processNaturalLanguageQuery asciiLower sampleStore sampleGuestId
      "The shower is NOT WORKING" sampleHotel sampleClock
    = Ok (reply, store')
    /\ interactionCollection store'
       = interactionCollection sampleStore ++ [saved]
    /\ intent saved = "complaint"%string
    /\ reply_sentimentScore reply < 0.
Proof.
  eexists. eexists.
  destruct (processNaturalLanguageQuery_records_reply asciiLower sampleStore
              sampleGuestId "The shower is NOT WORKING" sampleHotel sampleClock
              _ _ ltac:(vm_compute; reflexivity))
    as (saved & Hstore & _ & _ & _ & _ & _ & Hintent & _ & _ & _ & _ & Hneg).
  exists saved. split; [reflexivity |].
  split; [injection Hstore as <-; reflexivity |].
  split; [rewrite Hintent; reflexivity |].
  apply Hneg. reflexivity.
Defined.
